(** * Tres-Commas-Capital: the financial data aggregation pipeline

    A shallow embedding of [financial_data_api] (validator, cache manager,
    the two source clients and the aggregator) together with the
    properties its design document states about them.

    Conventions of the embedding.
    - Python values that travel through the cache or the composite record
      are [pyval]s; truthiness ([if x:]) is [truthy].
    - Wall-clock readings ([time.time()], [datetime.now()]) and implied
      volatilities are exact rationals: rounding of binary floats is not
      represented.
    - Strings are byte strings; [str.upper] is the ASCII one (ticker
      symbols are ASCII).
    - Stateful code runs in the monad [M S]: a state transformer that can
      raise, where the state reached at the point of the raise is kept
      (Python mutations are not rolled back by an exception).
    - Upstream providers (yfinance, the SEC endpoints, MongoDB) are the
      fields of an environment record: what they answer is arbitrary,
      including raising. *)

From Stdlib Require Import QArith ZArith String Ascii List Lqa Lia.
From Stdlib Require Import Sorting.Sorted Sorting.Permutation DecimalString.
From stdpp Require Import base option gmap strings list fin_maps.

Local Open Scope string_scope.
Local Open Scope Z_scope.

(** ** Python values and exceptions *)

Module Py.

#[local] Set Warnings "-register-all".

Inductive pyval : Type :=
| PyNone
| PyBool (b : bool)
| PyInt (z : Z)
| PyFloat (q : Q)
| PyStr (s : string)
| PyList (l : list pyval)
| PyDict (d : list (string * pyval)).

(** [bool(x)]: None, False, zero, and empty containers are falsy. *)
Definition truthy (v : pyval) : bool :=
  match v with
  | PyNone => false
  | PyBool b => b
  | PyInt z => negb (z =? 0)
  | PyFloat q => negb (Qeq_bool q 0)
  | PyStr s => negb (String.eqb s "")
  | PyList l => negb (Nat.eqb (List.length l) 0)
  | PyDict d => negb (Nat.eqb (List.length d) 0)
  end.


(** [x > y] and [x < y] on rationals. *)
Definition Qgtb (x y : Q) : bool := negb (Qle_bool x y).

Definition Qltb (x y : Q) : bool := negb (Qle_bool y x).

(** [int(x)] of a bool or an int, the view under which [True == 1]. *)
Definition as_int (v : pyval) : option Z :=
  match v with
  | PyBool b => Some (if b then 1 else 0)
  | PyInt z => Some z
  | _ => None
  end.

Inductive exn : Type :=
| ValueError | AttributeError | TypeError | KeyError | UpstreamError.

Inductive outcome (A : Type) : Type :=
| Ret (a : A)
| Raise (e : exn).
Arguments Ret {A} a.
Arguments Raise {A} e.


(** State transformer with exceptions; the state survives a raise. *)
Definition M (S A : Type) : Type := S -> outcome A * S.

Definition ret {S A} (a : A) : M S A := fun s => (Ret a, s).

Definition raise {S A} (e : exn) : M S A := fun s => (Raise e, s).

Definition bind {S A B} (m : M S A) (k : A -> M S B) : M S B :=
  fun s => match m s with
           | (Ret a, s') => k a s'
           | (Raise e, s') => (Raise e, s')
           end.

Definition get_state {S} : M S S := fun s => (Ret s, s).

Definition modify {S} (f : S -> S) : M S unit := fun s => (Ret tt, f s).

(** [try: body  except Exception: handler]. *)
Definition try_except {S A} (body : M S A) (handler : exn -> M S A) : M S A :=
  fun s => match body s with
           | (Ret a, s') => (Ret a, s')
           | (Raise e, s') => handler e s'
           end.

(** Lift the outcome of an external call into the monad. *)
Definition lift {S A} (o : outcome A) : M S A := fun s => (o, s).

(** ASCII [str.upper]. *)
Definition upper_ascii (c : ascii) : ascii :=
  let n := nat_of_ascii c in
  if (andb (Nat.leb 97 n) (Nat.leb n 122)) then ascii_of_nat (n - 32) else c.

Fixpoint upper (s : string) : string :=
  match s with
  | EmptyString => EmptyString
  | String c s' => String (upper_ascii c) (upper s')
  end.

(** [p in s] on strings: [p] occurs in [s] as a contiguous block. *)
Fixpoint contains (p s : string) : bool :=
  match s with
  | EmptyString => String.prefix p EmptyString
  | String c s' => String.prefix p s || contains p s'
  end.

(** [d.get(k, default)] on a dict given as its item list. *)
Fixpoint dict_get (d : list (string * pyval)) (k : string) (default : pyval) : pyval :=
  match d with
  | [] => default
  | (k', v) :: d' => if String.eqb k' k then v else dict_get d' k default
  end.

End Py.
Import Py.

Declare Scope py_scope.
Delimit Scope py_scope with py.
Notation "'exec' x <- m ;; k" := (bind m (fun x => k))
  (at level 10, x name, m at level 99, k at level 200,
   format "'[v' 'exec'  x  <-  m  ;; '/' k ']'") : py_scope.
Local Open Scope py_scope.

(** ** validation/validator.py *)

Module DataValidator.

(** [validate_ticker]: a falsy or non-string ticker raises [ValueError];
    otherwise the ticker is upper-cased. *)
Definition validate_ticker (ticker : pyval) : outcome string :=
  match ticker with
  | PyStr s => if truthy ticker then Ret (upper s) else Raise ValueError
  | _ => Raise ValueError
  end.

(** [validate_date_range], called at clock reading [t]: any exception of
    the parsing is re-raised as [ValueError]. *)
Definition validate_date_range (to_datetime : pyval -> outcome Q)
    (strftime_ymd : Q -> string) (start_date end_date : pyval) (t : Q)
    : outcome (string * string) :=
  let start := if truthy start_date then to_datetime start_date
               else to_datetime (PyStr "2000-01-01") in
  match start with
  | Raise _ => Raise ValueError
  | Ret start =>
    let end_ := if truthy end_date then to_datetime end_date else Ret t in
    match end_ with
    | Raise _ => Raise ValueError
    | Ret end_ =>
      if negb (Qle_bool start end_)
      then Ret (strftime_ymd end_, strftime_ymd start)
      else Ret (strftime_ymd start, strftime_ymd end_)
    end
  end.

(** [k in d] on a dict given as its item list. *)
Fixpoint has_key (k : string) (d : list (string * pyval)) : bool :=
  match d with
  | [] => false
  | (k', _) :: d' => String.eqb k' k || has_key k d'
  end.

Definition required_fields : list string :=
  ["accessionNumber"; "filingDate"; "form"; "primaryDocument"].

(** [validate_sec_filing]: the filing itself when it is a non-empty dict
    with the four required keys, [None] otherwise. *)
Definition validate_sec_filing (filing : pyval) : pyval :=
  match filing with
  | PyDict d =>
    if truthy filing then
      if forallb (fun field => has_key field d) required_fields then filing else PyNone
    else PyNone
  | _ => PyNone
  end.

(** [side in chain and isinstance(chain[side], list) and len(chain[side]) > 0].
    On a chain that is not a dict, [in] is the membership test of a list
    or the substring test of a string, after which the subscript raises
    [TypeError]; on anything else [in] itself raises. *)
Definition side_present (side : string) (chain : pyval) : outcome bool :=
  match chain with
  | PyDict d =>
    if has_key side d then
      match dict_get d side PyNone with
      | PyList (_ :: _) => Ret true
      | _ => Ret false
      end
    else Ret false
  | PyList l =>
    if existsb (fun x => match x with PyStr s => String.eqb s side | _ => false end) l
    then Raise TypeError else Ret false
  | PyStr s => if contains side s then Raise TypeError else Ret false
  | _ => Raise TypeError
  end.

(** The condition of the loop of [validate_options_data]; [or] does not
    evaluate its right operand when the left one holds. *)
Definition chain_valid (chain : pyval) : outcome bool :=
  match side_present "calls" chain with
  | Ret true => Ret true
  | Ret false => side_present "puts" chain
  | Raise e => Raise e
  end.

(** The loop of [validate_options_data]: the items kept, in order. *)
Fixpoint valid_options (items : list (string * pyval)) : outcome (list (string * pyval)) :=
  match items with
  | [] => Ret []
  | (date, chain) :: rest =>
    match chain_valid chain with
    | Raise e => Raise e
    | Ret keep =>
      match valid_options rest with
      | Raise e => Raise e
      | Ret kept => Ret (if keep then (date, chain) :: kept else kept)
      end
    end
  end.

(** [validate_options_data]: any exception of the loop becomes [None]. *)
Definition validate_options_data (options : pyval) : pyval :=
  match options with
  | PyDict items =>
    if truthy options then
      match valid_options items with
      | Ret kept => if truthy (PyDict kept) then PyDict kept else PyNone
      | Raise _ => PyNone
      end
    else PyNone
  | _ => PyNone
  end.

End DataValidator.

(** ** config.py *)

Module Config.

(** [CACHE_EXPIRY.get(cache_type, 3600)], in seconds. *)
Definition cache_expiry (cache_type : string) : Z :=
  if String.eqb cache_type "STOCK_PRICE" then 60 * 60
  else if String.eqb cache_type "HISTORICAL_DATA" then 24 * 60 * 60
  else if String.eqb cache_type "SEC_FILING" then 7 * 24 * 60 * 60
  else 3600.

Definition SEC_EDGAR_API_LIMIT : Z := 5.

End Config.

(** ** cache/manager.py *)

Module CacheManager.

(** What [set] stores under a key: [{'timestamp': ..., 'value': ...}]. *)
Record entry : Type := { timestamp : Q; value : pyval }.

(** [self.cache]: [None] when the backing store could not be opened,
    otherwise the diskcache store, a finite map from keys to entries. *)
Definition handle : Type := option (gmap string entry).

(** [bool(self.cache)].  A diskcache [Cache] defines [__len__] and no
    [__bool__], so the handle is falsy when it is [None] and also when the
    store holds no entry. *)
Definition handle_truthy (h : handle) : bool :=
  match h with
  | None => false
  | Some m => negb (Nat.eqb (size m) 0)
  end.

(** [get(key, cache_type)] at clock reading [now]; [None] is a miss.
    The method only reads the store. *)
Definition get (now : Q) (key cache_type : string) (h : handle) : pyval :=
  if negb (handle_truthy h) then PyNone
  else match h with
       | None => PyNone
       | Some m =>
         match m !! key with
         | None => PyNone
         | Some data =>
           if Qgtb (now - timestamp data) (inject_Z (Config.cache_expiry cache_type))
           then PyNone
           else value data
         end
       end.

(** [set(key, value, cache_type)] at clock reading [now]: the returned
    flag and the handle afterwards. *)
Definition set (now : Q) (key : string) (v : pyval) (cache_type : string)
    (h : handle) : bool * handle :=
  if negb (handle_truthy h) then (false, h)
  else match h with
       | None => (false, h)
       | Some m => (true, Some (<[key := {| timestamp := now; value := v |}]> m))
       end.

(** [keys_to_delete = [k for k in self.cache if pattern in str(k)]]. *)
Definition keys_to_delete (pattern : string) (m : gmap string entry) : list string :=
  List.filter (contains pattern) (map fst (map_to_list m)).

(** [for key in keys_to_delete: self.cache.delete(key)]. *)
Definition delete_all (ks : list string) (m : gmap string entry) : gmap string entry :=
  fold_left (fun acc k => delete k acc) ks m.

(** [clear(pattern)]: the returned flag and the handle afterwards.  A
    truthy pattern that is not a string makes [pattern in str(k)] raise
    [TypeError] at the first key, which the method's handler turns into
    [False]. *)
Definition clear (pattern : pyval) (h : handle) : bool * handle :=
  if negb (handle_truthy h) then (false, h)
  else match h with
       | None => (false, h)
       | Some m =>
         if truthy pattern then
           match pattern with
           | PyStr p => (true, Some (delete_all (keys_to_delete p m) m))
           | _ => (false, h)
           end
         else (true, Some ∅)
       end.

(** Number of entries a [clear] call removed. *)
Definition removed (before after : handle) : nat :=
  match before, after with
  | Some m, Some m' => size m - size m'
  | _, _ => 0
  end.

End CacheManager.

(** ** The process state shared by the clients *)

Module World.

(** The wall clock, the trace of [time.sleep] arguments and of upstream
    requests (latest first), the cache store (the cache managers of the
    clients open one directory), and the rate-limiter fields of the two
    source clients. *)
Record world : Type := {
  clock : Q;
  sleeps : list Q;
  requests : list string;
  cache : CacheManager.handle;
  request_count : Z;
  reset_time : Q;
  yahoo_last_request_time : Q;
  edgar_last_request_time : Q
}.

Definition set_clock (t : Q) (w : world) : world :=
  {| clock := t; sleeps := sleeps w; requests := requests w; cache := cache w;
     request_count := request_count w; reset_time := reset_time w;
     yahoo_last_request_time := yahoo_last_request_time w;
     edgar_last_request_time := edgar_last_request_time w |}.

Definition set_sleeps (l : list Q) (w : world) : world :=
  {| clock := clock w; sleeps := l; requests := requests w; cache := cache w;
     request_count := request_count w; reset_time := reset_time w;
     yahoo_last_request_time := yahoo_last_request_time w;
     edgar_last_request_time := edgar_last_request_time w |}.

Definition set_requests (l : list string) (w : world) : world :=
  {| clock := clock w; sleeps := sleeps w; requests := l; cache := cache w;
     request_count := request_count w; reset_time := reset_time w;
     yahoo_last_request_time := yahoo_last_request_time w;
     edgar_last_request_time := edgar_last_request_time w |}.

Definition set_cache (h : CacheManager.handle) (w : world) : world :=
  {| clock := clock w; sleeps := sleeps w; requests := requests w; cache := h;
     request_count := request_count w; reset_time := reset_time w;
     yahoo_last_request_time := yahoo_last_request_time w;
     edgar_last_request_time := edgar_last_request_time w |}.

Definition set_request_count (c : Z) (w : world) : world :=
  {| clock := clock w; sleeps := sleeps w; requests := requests w; cache := cache w;
     request_count := c; reset_time := reset_time w;
     yahoo_last_request_time := yahoo_last_request_time w;
     edgar_last_request_time := edgar_last_request_time w |}.

Definition set_reset_time (t : Q) (w : world) : world :=
  {| clock := clock w; sleeps := sleeps w; requests := requests w; cache := cache w;
     request_count := request_count w; reset_time := t;
     yahoo_last_request_time := yahoo_last_request_time w;
     edgar_last_request_time := edgar_last_request_time w |}.

Definition set_yahoo_last_request_time (t : Q) (w : world) : world :=
  {| clock := clock w; sleeps := sleeps w; requests := requests w; cache := cache w;
     request_count := request_count w; reset_time := reset_time w;
     yahoo_last_request_time := t;
     edgar_last_request_time := edgar_last_request_time w |}.

Definition set_edgar_last_request_time (t : Q) (w : world) : world :=
  {| clock := clock w; sleeps := sleeps w; requests := requests w; cache := cache w;
     request_count := request_count w; reset_time := reset_time w;
     yahoo_last_request_time := yahoo_last_request_time w;
     edgar_last_request_time := t |}.

(** [time.time()] and [datetime.now()]. *)
Definition now : M world Q := fun w => (Ret (clock w), w).

(** [time.sleep(d)]: the clock advances by [d]. *)
Definition sleep (d : Q) : M world unit :=
  modify (fun w => set_sleeps (d :: sleeps w) (set_clock (clock w + d)%Q w)).

(** An upstream request is about to be issued. *)
Definition request (what : string) : M world unit :=
  modify (fun w => set_requests (what :: requests w) w).

(** [self.cache.get(key, cache_type)]. *)
Definition cache_get (key cache_type : string) : M world pyval :=
  fun w => (Ret (CacheManager.get (clock w) key cache_type (cache w)), w).

(** [self.cache.set(key, value, cache_type)]. *)
Definition cache_set (key : string) (v : pyval) (cache_type : string) : M world bool :=
  fun w => let '(ok, h) := CacheManager.set (clock w) key v cache_type (cache w) in
           (Ret ok, set_cache h w).

(** [self.cache.clear(pattern)]. *)
Definition cache_clear (pattern : pyval) : M world bool :=
  fun w => let '(ok, h) := CacheManager.clear pattern (cache w) in
           (Ret ok, set_cache h w).

End World.
Import World.

(** ** What the upstream providers answer *)

Module Upstream.

(** A [requests] response: the status code and what [response.json()]
    gives. *)
Record response (A : Type) : Type := { status_code : Z; json : outcome A }.
Arguments status_code {A} r.
Arguments json {A} r.

(** One row of the SEC ticker directory. *)
Record company : Type := { c_ticker : option string; c_cik_str : option N }.

(** A submissions document: [filings] and, inside it, [recent] may each be
    missing; [recent] is a dict of parallel arrays ([form],
    [accessionNumber], [filingDate], [primaryDocument]). *)
Record submissions : Type := {
  s_filings : option (option (list (string * list string)))
}.

(** One fact of a company-facts document: [{val, end, filed, form}], each
    key possibly missing. *)
Record fact : Type := {
  f_val : option Q;
  f_end : option string;
  f_filed : option string;
  f_form : option string
}.

(** A taxonomy tag: its [units] dict (possibly missing), unit name to the
    array of facts. *)
Record tag : Type := { t_units : option (list (string * list fact)) }.

(** A company-facts document: the [facts] key (possibly missing), taxonomy
    name to tags. *)
Record company_facts : Type := {
  cf_facts : option (list (string * list (string * tag)))
}.

(** The providers.  Every answer may depend on the moment of the call.
    [to_datetime] is [pd.to_datetime] (it raises on what it cannot parse)
    and [strftime_ymd] the [strftime('%Y-%m-%d')] of a timestamp.
    [yf_download ticker range period interval] stands for [yf.download]
    followed by the checks and the repair of the frame: it raises when the
    download raises, gives [None] when the frame is missing, empty or
    rejected by [validate_historical_data], and otherwise the records of
    the frame after [reset_index]. *)
Record env : Type := {
  isoformat : Q -> string;
  to_datetime : pyval -> outcome Q;
  strftime_ymd : Q -> string;
  yf_info : string -> Q -> outcome pyval;
  yf_download : string -> option (string * string) -> string -> string -> Q
                -> outcome (option pyval);
  sec_company_tickers : Q -> outcome (response (list (string * company)));
  sec_submissions : string -> Q -> outcome (response submissions)
}.

End Upstream.
Import Upstream.

(** ** yahoo_finance/api.py *)

Module YahooFinanceAPI.

(** [min(30, 2 ** (request_count // 5))], the backoff of
    [_check_rate_limit], in seconds. *)
Definition backoff_delay (request_count : Z) : Z :=
  Z.min 30 (2 ^ (request_count / 5)).

(** The counter reset at the top of [_check_rate_limit]. *)
Definition reset_window : M world unit :=
  exec t <- now ;;
  exec w <- get_state ;;
  if Qle_bool (reset_time w) t
  then modify (fun w => set_reset_time (t + inject_Z 3600)%Q (set_request_count 0 w))
  else ret tt.

(** The one-second spacing from the previous request. *)
Definition spacing : M world unit :=
  exec t <- now ;;
  exec w <- get_state ;;
  let elapsed := (t - yahoo_last_request_time w)%Q in
  if Qltb elapsed 1 then sleep (1 - elapsed)%Q else ret tt.

(** The exponential backoff once more than five requests were counted. *)
Definition backoff : M world unit :=
  exec w <- get_state ;;
  if request_count w >? 5
  then sleep (inject_Z (backoff_delay (request_count w)))
  else ret tt.

(** [_check_rate_limit]. *)
Definition _check_rate_limit : M world unit :=
  exec _ <- reset_window ;;
  exec _ <- spacing ;;
  exec _ <- backoff ;;
  exec _ <- modify (fun w => set_request_count (request_count w + 1) w) ;;
  exec t <- now ;;
  modify (set_yahoo_last_request_time t).

Section Methods.
Variable E : env.

(** The dict [get_ticker_info] builds from the provider's [info]. *)
Definition relevant_info (ticker : string) (info : list (string * pyval)) (t : Q) : pyval :=
  PyDict [ ("symbol", PyStr ticker);
           ("name", dict_get info "shortName" (PyStr ""));
           ("sector", dict_get info "sector" (PyStr ""));
           ("industry", dict_get info "industry" (PyStr ""));
           ("market_cap", dict_get info "marketCap" (PyInt 0));
           ("pe_ratio", dict_get info "trailingPE" (PyInt 0));
           ("dividend_yield", dict_get info "dividendYield" (PyInt 0));
           ("beta", dict_get info "beta" (PyInt 0));
           ("fifty_two_week_high", dict_get info "fiftyTwoWeekHigh" (PyInt 0));
           ("fifty_two_week_low", dict_get info "fiftyTwoWeekLow" (PyInt 0));
           ("avg_volume", dict_get info "averageVolume" (PyInt 0));
           ("last_updated", PyStr (isoformat E t)) ].

(** The body of [get_ticker_info], inside its [try]. *)
Definition get_ticker_info_body (ticker : pyval) : M world pyval :=
  exec ticker <- lift (DataValidator.validate_ticker ticker) ;;
  let cache_key := "ticker_info_" +:+ ticker in
  exec cached_data <- cache_get cache_key "STOCK_PRICE" ;;
  if truthy cached_data then ret cached_data
  else
    exec _ <- _check_rate_limit ;;
    exec _ <- request ("yahoo:info:" +:+ ticker) ;;
    exec t <- now ;;
    exec info <- lift (yf_info E ticker t) ;;
    match info with
    | PyDict d =>
      if truthy info then
        exec t' <- now ;;
        let relevant := relevant_info ticker d t' in
        exec _ <- cache_set cache_key relevant "STOCK_PRICE" ;;
        ret relevant
      else ret PyNone
    | _ => ret PyNone
    end.

(** [get_ticker_info]: any exception of the body becomes [None]. *)
Definition get_ticker_info (ticker : pyval) : M world pyval :=
  try_except (get_ticker_info_body ticker) (fun _ => ret PyNone).

(** The body of [get_historical_data], inside its [try].  The frame that
    is returned is given by its records; [PyNone] is [None]. *)
Definition get_historical_data_body (ticker start_date end_date : pyval)
    (period interval : string) : M world pyval :=
  exec ticker <- lift (DataValidator.validate_ticker ticker) ;;
  exec t <- now ;;
  exec range <-
    (if truthy start_date || truthy end_date then
       exec r <- lift (DataValidator.validate_date_range
                         (to_datetime E) (strftime_ymd E) start_date end_date t) ;;
       ret (Some r)
     else ret None) ;;
  let cache_key :=
    match range with
    | Some (s, e) => "historical_" +:+ ticker +:+ "_" +:+ s +:+ "_" +:+ e +:+ "_" +:+ interval
    | None => "historical_" +:+ ticker +:+ "_" +:+ period +:+ "_" +:+ interval
    end in
  exec cached_data <- cache_get cache_key "HISTORICAL_DATA" ;;
  match cached_data with
  | PyNone =>
    exec _ <- _check_rate_limit ;;
    exec _ <- request ("yahoo:download:" +:+ ticker) ;;
    exec t' <- now ;;
    let range' :=
      match range with
      | Some (s, e) => if truthy (PyStr s) && truthy (PyStr e) then Some (s, e) else None
      | None => None
      end in
    match yf_download E ticker range' period interval t' with
    | Raise _ => ret PyNone
    | Ret None => ret PyNone
    | Ret (Some records) =>
      exec _ <- cache_set cache_key records "HISTORICAL_DATA" ;;
      ret records
    end
  | _ => ret cached_data
  end.

Definition get_historical_data (ticker start_date end_date : pyval)
    (period interval : string) : M world pyval :=
  try_except (get_historical_data_body ticker start_date end_date period interval)
             (fun _ => ret PyNone).

End Methods.

(** *** Implied volatility *)

(** An option contract record, as far as the computation reads it: the
    [impliedVolatility] key may be missing. *)
Record contract : Type := { impliedVolatility : option Q }.

(** One expiration of the options chain: the [calls] and [puts] keys may
    be missing. *)
Record chain : Type := {
  calls : option (list contract);
  puts : option (list contract)
}.

(** The positive implied volatilities of one side. *)
Definition side_ivs (side : option (list contract)) : list Q :=
  match side with
  | None => []
  | Some l =>
    flat_map (fun c => match impliedVolatility c with
                       | Some iv => if Qgtb iv 0 then [iv] else []
                       | None => []
                       end) l
  end.

(** [sum(l)]. *)
Definition Qsum (l : list Q) : Q := fold_left Qplus l 0%Q.

(** [sum(l) / len(l) if l else 0]. *)
Definition mean_or_zero (l : list Q) : Q :=
  match l with
  | [] => 0%Q
  | _ => (Qsum l / inject_Z (Z.of_nat (List.length l)))%Q
  end.

Definition nonempty {A} (l : list A) : bool :=
  match l with [] => false | _ => true end.

(** What is stored under one expiration date. *)
Record expiration_iv : Type := { calls_iv : Q; puts_iv : Q; average_iv : Q }.

(** The body of the loop over expirations, for one chain. *)
Definition expiration_average (c : chain) : expiration_iv :=
  let calls_iv := side_ivs (calls c) in
  let puts_iv := side_ivs (puts c) in
  let avg_calls_iv := mean_or_zero calls_iv in
  let avg_puts_iv := mean_or_zero puts_iv in
  let avg_total_iv :=
    if nonempty calls_iv || nonempty puts_iv
    then ((avg_calls_iv + avg_puts_iv) / 2)%Q else 0%Q in
  {| calls_iv := avg_calls_iv; puts_iv := avg_puts_iv; average_iv := avg_total_iv |}.

(** [all_ivs]: the per-expiration averages that are positive, in the
    order of the chain. *)
Definition all_ivs (options_data : list (string * chain)) : list Q :=
  List.filter (fun a => Qgtb a 0)
    (map (fun dc => average_iv (expiration_average (snd dc))) options_data).

(** The [iv_data] dict of [calculate_implied_volatility], once the options
    chain was fetched: the per-expiration entries and the overall
    [average_iv]. *)
Record iv_data : Type := {
  expirations : list (string * expiration_iv);
  overall_average_iv : Q
}.

Definition calculate_implied_volatility (options_data : list (string * chain)) : iv_data :=
  {| expirations := map (fun dc => (fst dc, expiration_average (snd dc))) options_data;
     overall_average_iv := mean_or_zero (all_ivs options_data) |}.

(** The per-expiration average as the design document words it: the mean
    of the side means over the sides that have a positive implied
    volatility, a side without any being left out. *)
Definition expiration_average_excluding (c : chain) : Q :=
  let calls_iv := side_ivs (calls c) in
  let puts_iv := side_ivs (puts c) in
  match nonempty calls_iv, nonempty puts_iv with
  | true, true => ((mean_or_zero calls_iv + mean_or_zero puts_iv) / 2)%Q
  | true, false => mean_or_zero calls_iv
  | false, true => mean_or_zero puts_iv
  | false, false => 0%Q
  end.

End YahooFinanceAPI.

(** ** sec_edgar/api.py *)

Module SECEdgarAPI.

(** [d[k]] / [k in d] on a dict given as its item list (keys distinct, in
    iteration order). *)
Fixpoint assoc {A} (k : string) (d : list (string * A)) : option A :=
  match d with
  | [] => None
  | (k', v) :: d' => if String.eqb k' k then Some v else assoc k d'
  end.

(** [max(0, (1.0 / SEC_EDGAR_API_LIMIT) - elapsed)]. *)
Definition wait_time (elapsed : Q) : Q :=
  let x := (1 / inject_Z Config.SEC_EDGAR_API_LIMIT - elapsed)%Q in
  if Qgtb x 0 then x else 0%Q.

(** [_respect_rate_limit]. *)
Definition _respect_rate_limit : M world unit :=
  exec current_time <- now ;;
  exec w <- get_state ;;
  let elapsed := (current_time - edgar_last_request_time w)%Q in
  let wait := wait_time elapsed in
  exec _ <- (if Qgtb wait 0 then sleep wait else ret tt) ;;
  exec _ <- sleep (1 # 10)%Q ;;
  exec t <- now ;;
  modify (set_edgar_last_request_time t).

(** [str(n)] of a non-negative integer. *)
Definition str_of_N (n : N) : string := NilZero.string_of_uint (N.to_uint n).

(** [str(z)] of an integer. *)
Definition str_of_Z (z : Z) : string := NilZero.string_of_int (Z.to_int z).

Fixpoint zeros (n : nat) : string :=
  match n with
  | O => EmptyString
  | S n' => String "0"%char (zeros n')
  end.

(** [s.zfill(width)] of a string of digits. *)
Definition zfill (width : nat) (s : string) : string :=
  zeros (width - String.length s) +:+ s.

(** The loop of [get_cik_from_ticker] over the ticker directory: the first
    company whose upper-cased ticker is [ticker] gives the CIK. *)
Fixpoint find_cik (ticker : string) (companies : list (string * company)) : option string :=
  match companies with
  | [] => None
  | (_, c) :: rest =>
    if String.eqb (upper (default "" (c_ticker c))) ticker
    then Some (zfill 10 (str_of_N (default 0%N (c_cik_str c))))
    else find_cik ticker rest
  end.

(** [{cik}] inside an f-string; the cache holds CIKs as strings. *)
Definition format_cik (cik : pyval) : string :=
  match cik with PyStr s => s | _ => "" end.

(** One element of the list [get_filings_metadata] returns. *)
Definition filing_dict (form accession date document ticker : string) (cik : pyval) : pyval :=
  PyDict [ ("form", PyStr form); ("accessionNumber", PyStr accession);
           ("filingDate", PyStr date); ("primaryDocument", PyStr document);
           ("ticker", PyStr ticker); ("cik", cik) ].

(** The loop of [get_filings_metadata] over the parallel arrays, from the
    current index on; [docs] is what is left of [primary_documents]. *)
Fixpoint collect (form_type : string) (count : Z) (ticker : string) (cik : pyval)
    (forms accession_numbers filing_dates docs : list string)
    (recent_filings : list pyval) : list pyval :=
  match forms, accession_numbers, filing_dates with
  | f :: forms', a :: accs', d :: dates' =>
    let doc := match docs with p :: _ => p | [] => "" end in
    if String.eqb f form_type then
      let recent_filings' := (recent_filings ++ [filing_dict f a d doc ticker cik])%list in
      if count <=? Z.of_nat (List.length recent_filings') then recent_filings'
      else collect form_type count ticker cik forms' accs' dates' (tl docs) recent_filings'
    else collect form_type count ticker cik forms' accs' dates' (tl docs) recent_filings
  | _, _, _ => recent_filings
  end.

Section Methods.
Variable E : env.

(** The body of [get_cik_from_ticker], inside its [try]. *)
Definition get_cik_from_ticker_body (ticker : pyval) : M world pyval :=
  exec ticker <- lift (DataValidator.validate_ticker ticker) ;;
  let cache_key := "cik_" +:+ ticker in
  exec cached_data <- cache_get cache_key "SEC_FILING" ;;
  if truthy cached_data then ret cached_data
  else
    exec _ <- _respect_rate_limit ;;
    exec _ <- request "sec:company_tickers" ;;
    exec t <- now ;;
    match sec_company_tickers E t with
    | Raise _ => ret PyNone
    | Ret response =>
      if negb (status_code response =? 200) then ret PyNone
      else match json response with
           | Raise _ => ret PyNone
           | Ret companies =>
             match find_cik ticker companies with
             | Some cik =>
               if truthy (PyStr cik) then
                 exec _ <- cache_set cache_key (PyStr cik) "SEC_FILING" ;;
                 ret (PyStr cik)
               else ret PyNone
             | None => ret PyNone
             end
           end
    end.

Definition get_cik_from_ticker (ticker : pyval) : M world pyval :=
  try_except (get_cik_from_ticker_body ticker) (fun _ => ret PyNone).

(** The body of [get_filings_metadata], inside its [try].  The f-string of
    the cache key formats the ticker as it was passed; past a truthy CIK
    the ticker is a string. *)
Definition get_filings_metadata_body (ticker : pyval) (form_type : string) (count : Z)
    : M world pyval :=
  exec cik <- get_cik_from_ticker ticker ;;
  if negb (truthy cik) then ret PyNone
  else
    match ticker with
    | PyStr tk =>
      let cache_key := "filings_" +:+ tk +:+ "_" +:+ form_type +:+ "_" +:+ str_of_Z count in
      exec cached_data <- cache_get cache_key "SEC_FILING" ;;
      if truthy cached_data then ret cached_data
      else
        exec _ <- _respect_rate_limit ;;
        exec _ <- request ("sec:submissions:" +:+ format_cik cik) ;;
        exec t <- now ;;
        match sec_submissions E (format_cik cik) t with
        | Raise _ => ret (PyList [])
        | Ret response =>
          if status_code response =? 404 then ret (PyList [])
          else if negb (status_code response =? 200) then ret (PyList [])
          else match json response with
               | Raise _ => ret (PyList [])
               | Ret filings_data =>
                 match s_filings filings_data with
                 | Some (Some []) => ret (PyList [])
                 | found =>
                   let recent_filings :=
                     match found with
                     | Some (Some recent) =>
                       collect form_type count tk cik
                         (default [] (assoc "form" recent))
                         (default [] (assoc "accessionNumber" recent))
                         (default [] (assoc "filingDate" recent))
                         (default [] (assoc "primaryDocument" recent)) []
                     | _ => []
                     end in
                   exec _ <- cache_set cache_key (PyList recent_filings) "SEC_FILING" ;;
                   ret (PyList recent_filings)
                 end
               end
        end
    | _ => ret PyNone
    end.

Definition get_filings_metadata (ticker : pyval) (form_type : string) (count : Z)
    : M world pyval :=
  try_except (get_filings_metadata_body ticker form_type count) (fun _ => ret (PyList [])).

(** [filings[0]]. *)
Definition first_item (filings : pyval) : outcome pyval :=
  match filings with
  | PyList (x :: _) => Ret x
  | PyStr (String c _) => Ret (PyStr (String c EmptyString))
  | PyDict _ => Raise KeyError
  | _ => Raise TypeError
  end.

(** [get_recent_10k]; the method has no [try] of its own. *)
Definition get_recent_10k (ticker : pyval) : M world pyval :=
  exec filings <- get_filings_metadata ticker "10-K" 1 ;;
  if negb (truthy filings) then ret PyNone
  else lift (first_item filings).

(** [get_recent_8k], with the default [count=5]. *)
Definition get_recent_8k (ticker : pyval) : M world pyval :=
  exec filings <- get_filings_metadata ticker "8-K" 5 ;;
  if negb (truthy filings) then ret (PyList [])
  else ret filings.

End Methods.

(** *** Key financials *)

(** One element of a series of [extract_key_financials]:
    [{'value', 'end_date', 'filing_date'}]. *)
Record fin_entry : Type := { value : Q; end_date : string; filing_date : string }.

(** The dict [extract_key_financials] returns. *)
Record financials : Type := {
  ticker : pyval;
  revenue : list fin_entry;
  net_income : list fin_entry;
  eps : list fin_entry
}.

(** The appended dict, for a fact whose form is 10-K. *)
Definition entry_of (f : fact) : fin_entry :=
  {| value := default 0%Q (f_val f);
     end_date := default "" (f_end f);
     filing_date := default "" (f_filed f) |}.

(** [entry.get('form') == '10-K']. *)
Definition is_10k (f : fact) : bool :=
  match f_form f with Some s => String.eqb s "10-K" | None => false end.

(** The two nested loops over one tag: for each unit, in order, the 10-K
    facts of that unit. *)
Definition tag_entries (t : tag) : list fin_entry :=
  match t_units t with
  | None => []
  | Some units =>
    flat_map (fun unit => map entry_of (List.filter is_10k (default [] (assoc unit units))))
             (map fst units)
  end.

(** [if key in us_gaap: ...] followed by the loops. *)
Definition entries_of_key (us_gaap : list (string * tag)) (key : string) : list fin_entry :=
  match assoc key us_gaap with
  | Some t => tag_entries t
  | None => []
  end.

Definition revenue_keys : list string := ["Revenue"; "Revenues"; "SalesRevenueNet"].

(** The loop [for rev_key in ['Revenue', 'Revenues', 'SalesRevenueNet']]:
    every key that is present appends to the one revenue list. *)
Definition revenue_entries (us_gaap : list (string * tag)) : list fin_entry :=
  flat_map (entries_of_key us_gaap) revenue_keys.

(** Python's [sorted(l, key=..., reverse=True)] on string keys: a stable
    sort into descending order. *)
Fixpoint insert_desc (x : fin_entry) (l : list fin_entry) : list fin_entry :=
  match l with
  | [] => [x]
  | y :: l' =>
    if String.leb (filing_date y) (filing_date x) then x :: y :: l'
    else y :: insert_desc x l'
  end.

Definition sorted_desc (l : list fin_entry) : list fin_entry :=
  fold_right insert_desc [] l.

(** [a] may come before [b] in a series ordered by filing date, most
    recent first. *)
Definition not_older (a b : fin_entry) : Prop :=
  String.leb (filing_date b) (filing_date a) = true.

(** [f] is one of the facts listed under some unit of the tag. *)
Definition fact_of_tag (t : tag) (f : fact) : Prop :=
  exists units unit facts,
    t_units t = Some units /\ assoc unit units = Some facts /\ In f facts.

(** [extract_key_financials], from the answer of [get_company_facts] on
    (inside its [try]): [None] without a document or without its [facts]
    key. *)
Definition extract_key_financials (tk : pyval) (facts : option company_facts)
    : option financials :=
  match facts with
  | None => None
  | Some doc =>
    match cf_facts doc with
    | None => None
    | Some taxonomies =>
      let us_gaap := default [] (assoc "us-gaap" taxonomies) in
      Some {| ticker := tk;
              revenue := sorted_desc (revenue_entries us_gaap);
              net_income := sorted_desc (entries_of_key us_gaap "NetIncomeLoss");
              eps := sorted_desc (entries_of_key us_gaap "EarningsPerShareDiluted") |}
    end
  end.

(** The revenue series as the design document words it: the entries of
    the first revenue tag that is present, and of that tag only. *)
Fixpoint first_matching_entries (us_gaap : list (string * tag)) (keys : list string)
    : list fin_entry :=
  match keys with
  | [] => []
  | k :: keys' =>
    match assoc k us_gaap with
    | Some t => tag_entries t
    | None => first_matching_entries us_gaap keys'
    end
  end.

End SECEdgarAPI.

(** ** __init__.py: the aggregator *)

Module FinancialDataAPI.

(** What [get_historical_data] hands back, as far as the aggregator looks
    at it: [None], an object with a [to_dict] method (with what calling it
    gives), or an object without one. *)
Inductive historical : Type :=
| HistNone
| HistFrame (to_dict : outcome pyval)
| HistOther.

(** [comprehensive_data].  The keys [historical_data] and [options_data]
    are absent until their step stores them. *)
Record composite : Type := {
  basic_info : pyval;
  implied_volatility : pyval;
  historical_data : option pyval;
  options_data : option pyval;
  recent_10k : pyval;
  recent_8k : pyval;
  key_financials : pyval;
  last_updated : string
}.

(** The initial response structure. *)
Definition defaults (stamp : string) : composite :=
  {| basic_info := PyDict []; implied_volatility := PyNone;
     historical_data := None; options_data := None;
     recent_10k := PyNone; recent_8k := PyList []; key_financials := PyNone;
     last_updated := stamp |}.

Definition set_basic_info (v : pyval) (c : composite) : composite :=
  {| basic_info := v; implied_volatility := implied_volatility c;
     historical_data := historical_data c; options_data := options_data c;
     recent_10k := recent_10k c; recent_8k := recent_8k c;
     key_financials := key_financials c; last_updated := last_updated c |}.

Definition set_implied_volatility (v : pyval) (c : composite) : composite :=
  {| basic_info := basic_info c; implied_volatility := v;
     historical_data := historical_data c; options_data := options_data c;
     recent_10k := recent_10k c; recent_8k := recent_8k c;
     key_financials := key_financials c; last_updated := last_updated c |}.

Definition set_historical_data (v : pyval) (c : composite) : composite :=
  {| basic_info := basic_info c; implied_volatility := implied_volatility c;
     historical_data := Some v; options_data := options_data c;
     recent_10k := recent_10k c; recent_8k := recent_8k c;
     key_financials := key_financials c; last_updated := last_updated c |}.

Definition set_options_data (v : pyval) (c : composite) : composite :=
  {| basic_info := basic_info c; implied_volatility := implied_volatility c;
     historical_data := historical_data c; options_data := Some v;
     recent_10k := recent_10k c; recent_8k := recent_8k c;
     key_financials := key_financials c; last_updated := last_updated c |}.

Definition set_recent_10k (v : pyval) (c : composite) : composite :=
  {| basic_info := basic_info c; implied_volatility := implied_volatility c;
     historical_data := historical_data c; options_data := options_data c;
     recent_10k := v; recent_8k := recent_8k c;
     key_financials := key_financials c; last_updated := last_updated c |}.

Definition set_recent_8k (v : pyval) (c : composite) : composite :=
  {| basic_info := basic_info c; implied_volatility := implied_volatility c;
     historical_data := historical_data c; options_data := options_data c;
     recent_10k := recent_10k c; recent_8k := v;
     key_financials := key_financials c; last_updated := last_updated c |}.

Definition set_key_financials (v : pyval) (c : composite) : composite :=
  {| basic_info := basic_info c; implied_volatility := implied_volatility c;
     historical_data := historical_data c; options_data := options_data c;
     recent_10k := recent_10k c; recent_8k := recent_8k c;
     key_financials := v; last_updated := last_updated c |}.

(** The collaborators of the aggregator: the methods it calls on
    [self.yahoo], [self.edgar] and [self.db].  Each may change the process
    state and may raise. *)
Record clients : Type := {
  yahoo_get_ticker_info : pyval -> M world pyval;
  yahoo_get_historical_data : pyval -> M world historical;
  yahoo_get_options_chain : pyval -> M world pyval;
  yahoo_calculate_implied_volatility : pyval -> M world pyval;
  edgar_get_recent_10k : pyval -> M world pyval;
  edgar_get_recent_8k : pyval -> M world pyval;
  edgar_extract_key_financials : pyval -> M world pyval;
  db_save_options_data : pyval -> pyval -> M world pyval;
  db_save_sec_filing : pyval -> M world pyval;
  db_save_stock_data : composite -> M world pyval
}.

(** The state while [get_stock_data] runs: the process state and the
    dict under construction. *)
Definition agg : Type := (world * composite)%type.

(** A call on a collaborator. *)
Definition call {A} (m : M world A) : M agg A :=
  fun s => let '(o, w') := m (fst s) in (o, (w', snd s)).

(** An assignment into [comprehensive_data]. *)
Definition store (f : composite -> composite) : M agg unit :=
  modify (fun s => (fst s, f (snd s))).

(** [for x in v]: the items a [for] loop visits. *)
Definition iterate (v : pyval) : outcome (list pyval) :=
  match v with
  | PyList l => Ret l
  | PyDict d => Ret (map (fun kv => PyStr (fst kv)) d)
  | PyStr s => Ret (map (fun c => PyStr (String c EmptyString)) (list_ascii_of_string s))
  | _ => Raise TypeError
  end.

Fixpoint for_each {S} (l : list pyval) (body : pyval -> M S unit) : M S unit :=
  match l with
  | [] => ret tt
  | x :: l' => exec _ <- body x ;; for_each l' body
  end.

Section Aggregator.
Variable E : env.
Variable C : clients.

Definition step_basic_info (ticker : pyval) : M agg unit :=
  exec stock_info <- call (yahoo_get_ticker_info C ticker) ;;
  if truthy stock_info then store (set_basic_info stock_info) else ret tt.

Definition step_historical (ticker : pyval) : M agg unit :=
  exec historical_data <- call (yahoo_get_historical_data C ticker) ;;
  match historical_data with
  | HistNone => ret tt
  | HistFrame to_dict => exec d <- lift to_dict ;; store (set_historical_data d)
  | HistOther => store (set_historical_data PyNone)
  end.

Definition step_options (ticker : pyval) : M agg unit :=
  exec options_data <- call (yahoo_get_options_chain C ticker) ;;
  if truthy options_data then
    exec _ <- store (set_options_data options_data) ;;
    exec _ <- call (db_save_options_data C ticker options_data) ;;
    ret tt
  else ret tt.

Definition step_implied_volatility (ticker : pyval) : M agg unit :=
  exec iv_data <- call (yahoo_calculate_implied_volatility C ticker) ;;
  if truthy iv_data then store (set_implied_volatility iv_data) else ret tt.

Definition step_recent_10k (ticker : pyval) : M agg unit :=
  exec sec_filings_10k <- call (edgar_get_recent_10k C ticker) ;;
  if truthy sec_filings_10k then
    exec _ <- store (set_recent_10k sec_filings_10k) ;;
    exec _ <- call (db_save_sec_filing C sec_filings_10k) ;;
    ret tt
  else ret tt.

Definition step_recent_8k (ticker : pyval) : M agg unit :=
  exec sec_filings_8k <- call (edgar_get_recent_8k C ticker) ;;
  if truthy sec_filings_8k then
    exec _ <- store (set_recent_8k sec_filings_8k) ;;
    exec filings <- lift (iterate sec_filings_8k) ;;
    for_each filings (fun filing =>
      if truthy filing
      then exec _ <- call (db_save_sec_filing C filing) ;; ret tt
      else ret tt)
  else ret tt.

Definition step_key_financials (ticker : pyval) : M agg unit :=
  exec financial_data <- call (edgar_extract_key_financials C ticker) ;;
  if truthy financial_data then store (set_key_financials financial_data) else ret tt.

Definition step_persist : M agg unit :=
  exec s <- get_state ;;
  exec _ <- call (db_save_stock_data C (snd s)) ;;
  ret tt.

Definition pause : M agg unit := call (sleep 2).

(** The [try] block of [get_stock_data]. *)
Definition gather (ticker : pyval) : M agg unit :=
  exec _ <- step_basic_info ticker ;;
  exec _ <- pause ;;
  exec _ <- step_historical ticker ;;
  exec _ <- pause ;;
  exec _ <- step_options ticker ;;
  exec _ <- pause ;;
  exec _ <- step_implied_volatility ticker ;;
  exec _ <- pause ;;
  exec _ <- step_recent_10k ticker ;;
  exec _ <- pause ;;
  exec _ <- step_recent_8k ticker ;;
  exec _ <- pause ;;
  exec _ <- step_key_financials ticker ;;
  step_persist.

(** The [try] block in two parts: the steps on the market-data client
    with the pause that follows them, and the steps on the filings client
    with the final save. *)
Definition gather_market (ticker : pyval) : M agg unit :=
  exec _ <- step_basic_info ticker ;;
  exec _ <- pause ;;
  exec _ <- step_historical ticker ;;
  exec _ <- pause ;;
  exec _ <- step_options ticker ;;
  exec _ <- pause ;;
  exec _ <- step_implied_volatility ticker ;;
  pause.

Definition gather_filings (ticker : pyval) : M agg unit :=
  exec _ <- step_recent_10k ticker ;;
  exec _ <- pause ;;
  exec _ <- step_recent_8k ticker ;;
  exec _ <- pause ;;
  exec _ <- step_key_financials ticker ;;
  step_persist.

(** [comprehensive_data], as it stands. *)
Definition current : M agg composite := fun s => (Ret (snd s), s).

(** [ticker.upper()]: only a string has the method. *)
Definition ticker_upper (ticker : pyval) : outcome pyval :=
  match ticker with
  | PyStr s => Ret (PyStr (upper s))
  | _ => Raise AttributeError
  end.

(** [get_stock_data]: the upper-casing and the defaults come before the
    [try]; the handler returns the dict as it stands. *)
Definition get_stock_data (ticker : pyval) : M world composite :=
  exec ticker <- lift (ticker_upper ticker) ;;
  exec t <- now ;;
  fun w =>
    let '(o, (w', _)) :=
      try_except (exec _ <- gather ticker ;; current) (fun _ => current)
                 (w, defaults (isoformat E t)) in
    (o, w').

(** [clear_cache], on a cache manager given by its [clear] method. *)
Definition clear_cache_via {A} (manager_clear : pyval -> M world A) (pattern : pyval)
    : M world bool :=
  try_except (exec _ <- manager_clear pattern ;; ret true) (fun _ => ret false).

(** [clear_cache]. *)
Definition clear_cache (pattern : pyval) : M world bool :=
  clear_cache_via cache_clear pattern.

End Aggregator.

(** A computation of the aggregator keeps a property of the dict under
    construction, whether it returns or raises. *)
Definition keeps {A} (P : composite -> Prop) (m : M agg A) : Prop :=
  forall s o s', m s = (o, s') -> P (snd s) -> P (snd s').

End FinancialDataAPI.

(** ** Properties kept by computations on the process state *)

Module Frame.

(** A computation keeps a property of the process state, whether it
    returns or raises. *)
Definition preserves {A} (P : world -> Prop) (m : M world A) : Prop :=
  forall w o w', m w = (o, w') -> P w -> P w'.

End Frame.

(** ** Concrete states and providers used in examples *)

Module Examples.

(** Providers that fail on every request. *)
Definition unreachable : env :=
  {| isoformat := fun _ => "2024-01-01T00:00:00";
     to_datetime := fun _ => Raise ValueError;
     strftime_ymd := fun _ => "2024-01-01";
     yf_info := fun _ _ => Raise UpstreamError;
     yf_download := fun _ _ _ _ _ => Raise UpstreamError;
     sec_company_tickers := fun _ => Raise UpstreamError;
     sec_submissions := fun _ _ => Raise UpstreamError |}.

(** A process that just started, at clock reading [t], on cache handle
    [h]. *)
Definition fresh (t : Q) (h : CacheManager.handle) : world :=
  {| clock := t; sleeps := []; requests := []; cache := h;
     request_count := 0; reset_time := (t + inject_Z 3600)%Q;
     yahoo_last_request_time := 0; edgar_last_request_time := 0 |}.

Definition stored (t : Q) (v : pyval) : CacheManager.entry :=
  {| CacheManager.timestamp := t; CacheManager.value := v |}.

(** A store with two entries about AAPL and one about MSFT. *)
Definition three_entries : gmap string CacheManager.entry :=
  <["ticker_info_AAPL" := stored 0 (PyDict [("symbol", PyStr "AAPL")])]>
  (<["cik_AAPL" := stored 0 (PyStr "0000320193")]>
  (<["cik_MSFT" := stored 0 (PyStr "0000789019")]> ∅)).

(** A store where the CIK of AAPL is cached and the list of its 10-K
    filings was cached empty. *)
Definition empty_filings_cached : gmap string CacheManager.entry :=
  <["cik_AAPL" := stored 0 (PyStr "0000320193")]>
  (<["filings_AAPL_10-K_1" := stored 0 (PyList [])]> ∅).

(** Collaborators where the market-data client answers and the filings
    client raises on every call. *)
Definition filings_down : FinancialDataAPI.clients :=
  {| FinancialDataAPI.yahoo_get_ticker_info :=
       fun _ => ret (PyDict [("symbol", PyStr "AAPL")]);
     FinancialDataAPI.yahoo_get_historical_data := fun _ => ret FinancialDataAPI.HistNone;
     FinancialDataAPI.yahoo_get_options_chain := fun _ => ret PyNone;
     FinancialDataAPI.yahoo_calculate_implied_volatility := fun _ => ret PyNone;
     FinancialDataAPI.edgar_get_recent_10k := fun _ => raise UpstreamError;
     FinancialDataAPI.edgar_get_recent_8k := fun _ => raise UpstreamError;
     FinancialDataAPI.edgar_extract_key_financials := fun _ => raise UpstreamError;
     FinancialDataAPI.db_save_options_data := fun _ _ => ret (PyBool false);
     FinancialDataAPI.db_save_sec_filing := fun _ => ret (PyBool false);
     FinancialDataAPI.db_save_stock_data := fun _ => ret (PyBool false) |}.

(** Collaborators that raise on every call. *)
Definition everything_down : FinancialDataAPI.clients :=
  {| FinancialDataAPI.yahoo_get_ticker_info := fun _ => raise UpstreamError;
     FinancialDataAPI.yahoo_get_historical_data := fun _ => raise UpstreamError;
     FinancialDataAPI.yahoo_get_options_chain := fun _ => raise UpstreamError;
     FinancialDataAPI.yahoo_calculate_implied_volatility := fun _ => raise UpstreamError;
     FinancialDataAPI.edgar_get_recent_10k := fun _ => raise UpstreamError;
     FinancialDataAPI.edgar_get_recent_8k := fun _ => raise UpstreamError;
     FinancialDataAPI.edgar_extract_key_financials := fun _ => raise UpstreamError;
     FinancialDataAPI.db_save_options_data := fun _ _ => raise UpstreamError;
     FinancialDataAPI.db_save_sec_filing := fun _ => raise UpstreamError;
     FinancialDataAPI.db_save_stock_data := fun _ => raise UpstreamError |}.

(** Providers that answer: dates parse, the market-data provider knows
    the company, the ticker directory lists it in lower case, and the
    submissions document lists three filings. *)
Definition answering : env :=
  {| isoformat := fun _ => "2024-01-01T00:00:00";
     to_datetime := fun v =>
       match v with
       | PyStr s => if String.eqb s "2024-01-01" then Ret 100%Q
                    else if String.eqb s "2024-06-30" then Ret 200%Q
                    else Raise ValueError
       | _ => Raise ValueError
       end;
     strftime_ymd := fun q => if Qle_bool q 150 then "2024-01-01" else "2024-06-30";
     yf_info := fun _ _ => Ret (PyDict [("shortName", PyStr "Apple Inc.")]);
     yf_download := fun _ _ _ _ _ => Ret None;
     sec_company_tickers := fun _ =>
       Ret {| status_code := 200;
              json := Ret [("0", {| c_ticker := Some "aapl";
                                    c_cik_str := Some 320193%N |})] |};
     sec_submissions := fun _ _ =>
       Ret {| status_code := 200;
              json := Ret {| s_filings :=
                Some (Some [ ("form", ["10-K"; "8-K"; "10-K"]);
                             ("accessionNumber", ["a-1"; "a-2"; "a-3"]);
                             ("filingDate", ["2024-02-01"; "2023-11-01"; "2023-02-01"]);
                             ("primaryDocument", ["k1.htm"; "e1.htm"]) ]) |} |} |}.

(** A store that holds one unrelated entry. *)
Definition one_entry : gmap string CacheManager.entry :=
  <["cik_MSFT" := stored 0 (PyStr "0000789019")]> ∅.

Definition annual (v : Q) (filed : string) : fact :=
  {| f_val := Some v; f_end := Some "12-31"; f_filed := Some filed;
     f_form := Some "10-K" |}.

Definition quarterly (v : Q) (filed : string) : fact :=
  {| f_val := Some v; f_end := Some "03-31"; f_filed := Some filed;
     f_form := Some "10-Q" |}.

(** A company-facts document that reports revenue under two of the
    synonymous tags. *)
Definition two_revenue_tags : company_facts :=
  {| cf_facts :=
       Some [ ("us-gaap",
               [ ("Revenue",
                  {| t_units := Some [("USD", [annual 100 "2020-02-01"])] |});
                 ("Revenues",
                  {| t_units := Some [("USD", [annual 120 "2021-02-01";
                                               quarterly 30 "2021-05-01"])] |}) ]) ] |}.

End Examples.

(** * Properties *)

(** ** Strings *)

Lemma append_cons (c : ascii) (a b : string) :
  String c a +:+ b = String c (a +:+ b).
Proof. reflexivity. Qed.

Lemma append_nil (b : string) : "" +:+ b = b.
Proof. reflexivity. Qed.

Lemma prefix_spec (p s : string) :
  String.prefix p s = true <-> exists b, s = p +:+ b.
Proof.
  revert s. induction p as [|c p IH]; intros s.
  - split; [intros _; exists s; reflexivity | intros _; destruct s; reflexivity].
  - destruct s as [|c' s]; simpl.
    + split; [discriminate | intros [b Hb]; rewrite append_cons in Hb; discriminate].
    + destruct (Ascii.ascii_dec c c') as [->|Hne].
      * rewrite IH. split; intros [b Hb]; exists b.
        -- rewrite append_cons. congruence.
        -- rewrite append_cons in Hb. congruence.
      * split; [discriminate |].
        intros [b Hb]. rewrite append_cons in Hb. congruence.
Qed.

Lemma contains_spec (p s : string) :
  contains p s = true <-> exists a b, s = a +:+ p +:+ b.
Proof.
  induction s as [|c s IH]; cbn [contains].
  - rewrite prefix_spec. split.
    + intros [b Hb]. exists "", b. exact Hb.
    + intros [a [b Hab]]. destruct a as [|c a].
      * rewrite append_nil in Hab. eauto.
      * rewrite append_cons in Hab. discriminate.
  - rewrite orb_true_iff, IH, prefix_spec. split.
    + intros [[b Hb] | [a [b Hab]]].
      * exists "", b. exact Hb.
      * exists (String c a), b. rewrite append_cons. now rewrite Hab.
    + intros [a [b Hab]]. destruct a as [|c' a].
      * left. rewrite append_nil in Hab. eauto.
      * right. rewrite append_cons in Hab. exists a, b. congruence.
Qed.

Lemma contains_empty_pattern (s : string) : contains "" s = true.
Proof. apply contains_spec. exists "", s. reflexivity. Qed.

(** ** The cache manager *)

Lemma lookup_delete_all (ks : list string) (m : gmap string CacheManager.entry) (k : string) :
  CacheManager.delete_all ks m !! k = if decide (k ∈ ks) then None else m !! k.
Proof.
  unfold CacheManager.delete_all. revert m.
  induction ks as [|a ks IH]; intros m; simpl.
  - destruct (decide (k ∈ [])) as [Hin|]; [inversion Hin | reflexivity].
  - rewrite IH. destruct (decide (k ∈ ks)) as [Hin|Hnin].
    + rewrite decide_True by (right; exact Hin). reflexivity.
    + destruct (decide (k = a)) as [->|Hne].
      * rewrite decide_True by left. apply lookup_delete_eq.
      * rewrite decide_False.
        -- apply lookup_delete_ne. congruence.
        -- intros Hin. inversion Hin; subst; contradiction.
Qed.

Lemma elem_of_keys_to_delete (p : string) (m : gmap string CacheManager.entry) (k : string) :
  k ∈ CacheManager.keys_to_delete p m <-> contains p k = true /\ is_Some (m !! k).
Proof.
  unfold CacheManager.keys_to_delete.
  rewrite list_elem_of_In, filter_In, in_map_iff. split.
  - intros [[[k' e] [Hk Hin]] Hc]. simpl in Hk. subst k'. split; [exact Hc|].
    apply list_elem_of_In, elem_of_map_to_list in Hin. eauto.
  - intros [Hc [e He]]. split; [|exact Hc].
    exists (k, e). split; [reflexivity|].
    apply list_elem_of_In, elem_of_map_to_list. exact He.
Qed.

(** After the deletions of [clear(pattern)], a key is gone when the
    pattern occurs in it and untouched otherwise. *)
Lemma lookup_after_clear (p : string) (m : gmap string CacheManager.entry) (k : string) :
  CacheManager.delete_all (CacheManager.keys_to_delete p m) m !! k
  = if contains p k then None else m !! k.
Proof.
  rewrite lookup_delete_all.
  destruct (decide (k ∈ CacheManager.keys_to_delete p m)) as [Hin|Hnin].
  - apply elem_of_keys_to_delete in Hin as [-> _]. reflexivity.
  - destruct (contains p k) eqn:Hc; [|reflexivity].
    destruct (m !! k) eqn:Hk; [|reflexivity].
    exfalso. apply Hnin, elem_of_keys_to_delete. eauto.
Qed.

Lemma handle_truthy_insert (k : string) (e : CacheManager.entry)
    (m : gmap string CacheManager.entry) :
  CacheManager.handle_truthy (Some (<[k := e]> m)) = true.
Proof.
  simpl. apply negb_true_iff, Nat.eqb_neq.
  intros H. apply map_size_empty_iff in H. exact (insert_non_empty _ _ _ H).
Qed.

Lemma handle_truthy_Some (h : CacheManager.handle) :
  CacheManager.handle_truthy h = true -> exists m, h = Some m.
Proof. destruct h; [eauto | discriminate]. Qed.

(** C5 (amended).  On a cache that is enabled and holds at least one
    entry, [clear(pattern)] removes exactly the entries whose key contains
    the pattern as a substring and leaves the others untouched,
    [clear()] without a pattern removes every entry, and in both cases the
    method returns the flag [True], not a number of entries. *)
Theorem clear_removes_matching_returns_flag
    (m : gmap string CacheManager.entry) (pattern : option string) :
  CacheManager.handle_truthy (Some m) = true ->
  exists m',
    CacheManager.clear (match pattern with Some p => PyStr p | None => PyNone end) (Some m)
    = (true, Some m')
    /\ forall k, m' !! k = match pattern with
                           | Some p => if contains p k then None else m !! k
                           | None => None
                           end.
Proof.
  intros Hm. unfold CacheManager.clear. rewrite Hm. cbn [negb].
  destruct pattern as [p|]; cbn [truthy].
  - destruct p as [|c p]; cbn [String.eqb negb].
    + exists ∅. split; [reflexivity|]. intros k.
      rewrite contains_empty_pattern. apply lookup_empty.
    + eexists. split; [reflexivity|]. intros k. apply lookup_after_clear.
  - exists ∅. split; [reflexivity|]. intros k. apply lookup_empty.
Qed.

Lemma clear_removes_matching_returns_flag_witness :
  exists m',
    CacheManager.clear (PyStr "AAPL") (Some Examples.three_entries) = (true, Some m')
    /\ forall k, m' !! k = if contains "AAPL" k then None else Examples.three_entries !! k.
Proof.
  apply (clear_removes_matching_returns_flag Examples.three_entries (Some "AAPL")).
  vm_compute. reflexivity.
Defined.

(** C5, as stated, fails: clearing the pattern [AAPL] on a store with two
    matching entries removes two entries and returns [True], which as a
    number is 1. *)
Lemma clear_returns_flag_not_count :
  let r := CacheManager.clear (PyStr "AAPL") (Some Examples.three_entries) in
  CacheManager.removed (Some Examples.three_entries) (snd r) = 2%nat
  /\ as_int (PyBool (fst r)) = Some 1
  /\ as_int (PyBool (fst r))
     <> Some (Z.of_nat (CacheManager.removed (Some Examples.three_entries) (snd r))).
Proof. vm_compute. repeat split; discriminate. Qed.

(** Round trip on a cache that already holds an entry: [set] stores the
    value with the current clock reading, the entry stays in the store,
    and [get] gives the value back exactly while the age is within the
    time-to-live of the category named at the read. *)
Lemma set_get_roundtrip (h : CacheManager.handle) (t t' : Q) (k : string) (v : pyval)
    (cat cat' : string) :
  CacheManager.handle_truthy h = true ->
  exists m',
    CacheManager.set t k v cat h = (true, Some m')
    /\ m' !! k = Some {| CacheManager.timestamp := t; CacheManager.value := v |}
    /\ CacheManager.get t' k cat' (Some m')
       = if Qgtb (t' - t) (inject_Z (Config.cache_expiry cat'))
         then PyNone else v.
Proof.
  intros Hh. destruct (handle_truthy_Some h Hh) as [m ->].
  unfold CacheManager.set. rewrite Hh. cbn [negb].
  eexists. split; [reflexivity|]. split; [apply lookup_insert_eq|].
  unfold CacheManager.get. rewrite handle_truthy_insert. cbn [negb].
  rewrite lookup_insert_eq. reflexivity.
Qed.

(** C6, on the failing input: on an enabled cache whose store is empty,
    [set] stores nothing and reports [False], and the [get] that follows
    misses, whatever the key, the value, the category and the clock
    readings. *)
Theorem set_get_on_empty_store (t t' : Q) (k : string) (v : pyval) (cat : string) :
  CacheManager.set t k v cat (Some ∅) = (false, Some ∅)
  /\ CacheManager.get t' k cat (snd (CacheManager.set t k v cat (Some ∅))) = PyNone.
Proof. split; reflexivity. Qed.

(** ** The aggregator's [clear_cache] *)

Lemma cache_clear_disabled (pattern : pyval) (w : world) :
  CacheManager.handle_truthy (cache w) = false ->
  cache_clear pattern w = (Ret false, w).
Proof.
  intros H. unfold cache_clear, CacheManager.clear. rewrite H. cbn [negb].
  destruct w; reflexivity.
Qed.

(** C9.  [clear_cache] returns [True] whenever the manager's [clear] does
    not raise, whatever that call returned; with the actual manager it
    returns [True] in every state; and when the cache is disabled the
    manager's [clear] reports [False] and clears nothing while
    [clear_cache] still returns [True]. *)
Theorem clear_cache_ignores_result (pattern : pyval) (w : world) :
  (forall (A : Type) (manager_clear : pyval -> M world A) (r : A) (w' : world),
      manager_clear pattern w = (Ret r, w') ->
      FinancialDataAPI.clear_cache_via manager_clear pattern w = (Ret true, w'))
  /\ fst (FinancialDataAPI.clear_cache pattern w) = Ret true
  /\ (CacheManager.handle_truthy (cache w) = false ->
      cache_clear pattern w = (Ret false, w)
      /\ FinancialDataAPI.clear_cache pattern w = (Ret true, w)).
Proof.
  assert (Hvia : forall (A : Type) (mc : pyval -> M world A) (r : A) (w' : world),
             mc pattern w = (Ret r, w') ->
             FinancialDataAPI.clear_cache_via mc pattern w = (Ret true, w')).
  { intros A mc r w' H.
    unfold FinancialDataAPI.clear_cache_via, try_except, bind. rewrite H. reflexivity. }
  split; [exact Hvia|]. split.
  - unfold FinancialDataAPI.clear_cache.
    destruct (cache_clear pattern w) as [o w'] eqn:Hc.
    assert (exists b, o = Ret b) as [b ->].
    { unfold cache_clear in Hc.
      destruct (CacheManager.clear pattern (cache w)) as [ok h].
      inversion Hc. eauto. }
    rewrite (Hvia _ _ _ _ Hc). reflexivity.
  - intros Hd. pose proof (cache_clear_disabled pattern w Hd) as Hc.
    split; [exact Hc|]. exact (Hvia _ _ _ _ Hc).
Qed.

Lemma clear_cache_ignores_result_witness :
  FinancialDataAPI.clear_cache_via cache_clear PyNone (Examples.fresh 0 None)
  = (Ret true, Examples.fresh 0 None)
  /\ cache_clear PyNone (Examples.fresh 0 None) = (Ret false, Examples.fresh 0 None)
  /\ FinancialDataAPI.clear_cache PyNone (Examples.fresh 0 None)
     = (Ret true, Examples.fresh 0 None).
Proof.
  split.
  - apply (proj1 (clear_cache_ignores_result PyNone (Examples.fresh 0 None))
             bool cache_clear false (Examples.fresh 0 None)).
    reflexivity.
  - apply (proj2 (proj2 (clear_cache_ignores_result PyNone (Examples.fresh 0 None)))).
    reflexivity.
Defined.

(** ** The windowed rate limiter of the market-data client *)

Lemma backoff_delay_cap (c : Z) : YahooFinanceAPI.backoff_delay c <= 30.
Proof. unfold YahooFinanceAPI.backoff_delay. apply Z.le_min_l. Qed.

Lemma backoff_delay_mono (c c' : Z) :
  c <= c' -> YahooFinanceAPI.backoff_delay c <= YahooFinanceAPI.backoff_delay c'.
Proof.
  intros H. unfold YahooFinanceAPI.backoff_delay.
  apply Z.min_le_compat_l, Z.pow_le_mono_r; [lia|].
  apply Z.div_le_mono; lia.
Qed.

(** An acquire inside the window, past the threshold: the last sleep is
    the backoff, the counter goes up by one, the request time is stamped,
    and nothing else changes. *)
Lemma check_rate_limit_in_window (w : world) :
  Qle_bool (reset_time w) (clock w) = false ->
  5 < request_count w ->
  exists (spacing_sleep : list Q) (t : Q),
    YahooFinanceAPI._check_rate_limit w
    = (Ret tt,
       {| clock := t;
          sleeps := inject_Z (YahooFinanceAPI.backoff_delay (request_count w))
                    :: (spacing_sleep ++ sleeps w)%list;
          requests := requests w; cache := cache w;
          request_count := request_count w + 1; reset_time := reset_time w;
          yahoo_last_request_time := t;
          edgar_last_request_time := edgar_last_request_time w |}).
Proof.
  intros Hwin Hc.
  assert (Hgt : (request_count w >? 5) = true) by (apply Z.gtb_lt; lia).
  unfold YahooFinanceAPI._check_rate_limit, YahooFinanceAPI.reset_window,
    YahooFinanceAPI.spacing, YahooFinanceAPI.backoff.
  unfold bind, now, get_state, modify, sleep, ret. cbn.
  rewrite Hwin. cbn.
  destruct (Qltb (clock w - yahoo_last_request_time w) 1); cbn;
    rewrite Hgt; cbn.
  - exists [(1 - (clock w - yahoo_last_request_time w))%Q]. eexists. reflexivity.
  - exists []. eexists. reflexivity.
Qed.

(** An acquire at or after the end of the window starts a new window:
    the counter restarts, no backoff is slept, and the request is counted
    as the first of the new window. *)
Lemma check_rate_limit_window_reset (w : world) :
  Qle_bool (reset_time w) (clock w) = true ->
  let w1 := snd (YahooFinanceAPI._check_rate_limit w) in
  request_count w1 = 1
  /\ reset_time w1 = (clock w + inject_Z 3600)%Q
  /\ (sleeps w1 = sleeps w
      \/ sleeps w1 = (1 - (clock w - yahoo_last_request_time w))%Q :: sleeps w).
Proof.
  intros Hwin.
  unfold YahooFinanceAPI._check_rate_limit, YahooFinanceAPI.reset_window,
    YahooFinanceAPI.spacing, YahooFinanceAPI.backoff.
  unfold bind, now, get_state, modify, sleep, ret. cbn.
  rewrite Hwin. cbn.
  destruct (Qltb (clock w - yahoo_last_request_time w) 1); cbn; auto.
Qed.

(** C7.  Past the threshold of five counted requests and inside the
    window, an acquire sleeps the backoff delay
    [min(30, 2 ^ (request_count / 5))] seconds (integer division, as in the
    code) and counts the request; the delay is at most 30 seconds; and the
    next acquire, if the window has not elapsed by then, sleeps a delay
    that is again given by the formula, is not smaller, and is at most 30
    seconds. *)
Theorem backoff_nondecreasing_and_capped (w : world) :
  5 < request_count w ->
  Qle_bool (reset_time w) (clock w) = false ->
  let w1 := snd (YahooFinanceAPI._check_rate_limit w) in
  let d1 := Z.min 30 (2 ^ (request_count w / 5)) in
  hd_error (sleeps w1) = Some (inject_Z d1)
  /\ request_count w1 = request_count w + 1
  /\ d1 <= 30
  /\ (Qle_bool (reset_time w1) (clock w1) = false ->
      let w2 := snd (YahooFinanceAPI._check_rate_limit w1) in
      let d2 := Z.min 30 (2 ^ ((request_count w + 1) / 5)) in
      hd_error (sleeps w2) = Some (inject_Z d2)
      /\ request_count w2 = request_count w + 2
      /\ d1 <= d2 /\ d2 <= 30).
Proof.
  intros Hc Hwin.
  destruct (check_rate_limit_in_window w Hwin Hc) as (sp & t & Hrun).
  cbv zeta. rewrite Hrun. cbn [snd sleeps request_count hd_error].
  split; [reflexivity|]. split; [reflexivity|].
  split; [apply (backoff_delay_cap (request_count w))|].
  intros Hwin1.
  match type of Hwin1 with Qle_bool (reset_time ?w1) _ = _ =>
    destruct (check_rate_limit_in_window w1 Hwin1) as (sp' & t' & Hrun');
      [cbn; lia|] end.
  rewrite Hrun'. cbn [snd sleeps request_count hd_error].
  split; [reflexivity|]. split; [lia|]. split.
  - apply (backoff_delay_mono (request_count w) (request_count w + 1)). lia.
  - apply (backoff_delay_cap (request_count w + 1)).
Qed.

Lemma backoff_nondecreasing_and_capped_witness :
  let w := set_request_count 9 (Examples.fresh 0 None) in
  let w1 := snd (YahooFinanceAPI._check_rate_limit w) in
  let w2 := snd (YahooFinanceAPI._check_rate_limit w1) in
  hd_error (sleeps w1) = Some (inject_Z (Z.min 30 (2 ^ (9 / 5))))
  /\ hd_error (sleeps w2) = Some (inject_Z (Z.min 30 (2 ^ ((9 + 1) / 5))))
  /\ Z.min 30 (2 ^ (9 / 5)) <= Z.min 30 (2 ^ ((9 + 1) / 5)).
Proof.
  pose proof (backoff_nondecreasing_and_capped
                (set_request_count 9 (Examples.fresh 0 None))) as H.
  cbv zeta in H.
  destruct H as (H1 & _ & _ & H2); [cbn; lia | reflexivity |].
  destruct H2 as (H3 & _ & H4 & _); [reflexivity|].
  cbv zeta. split; [exact H1|]. split; [exact H3 | exact H4].
Defined.

(** ** Input validation in the source clients *)






(** ** Cache hits in the source clients *)

(** When the cached value is truthy, [get_ticker_info] and
    [get_cik_from_ticker] return it and leave the whole process state as
    it was: no sleep, no request, no change of the rate-limiter fields. *)
Lemma truthy_hit_returns_without_acquiring (E : env) (ticker : pyval) (tk : string)
    (w : world) :
  DataValidator.validate_ticker ticker = Ret tk ->
  (forall v, CacheManager.get (clock w) ("ticker_info_" +:+ tk) "STOCK_PRICE" (cache w) = v ->
             truthy v = true ->
             YahooFinanceAPI.get_ticker_info E ticker w = (Ret v, w))
  /\ (forall v, CacheManager.get (clock w) ("cik_" +:+ tk) "SEC_FILING" (cache w) = v ->
                truthy v = true ->
                SECEdgarAPI.get_cik_from_ticker E ticker w = (Ret v, w)).
Proof.
  intros Hv. split; intros v Hget Ht.
  - unfold YahooFinanceAPI.get_ticker_info, YahooFinanceAPI.get_ticker_info_body,
      try_except, bind, lift, ret, cache_get.
    rewrite Hv, Hget, Ht. reflexivity.
  - unfold SECEdgarAPI.get_cik_from_ticker, SECEdgarAPI.get_cik_from_ticker_body,
      try_except, bind, lift, ret, cache_get.
    rewrite Hv, Hget, Ht. reflexivity.
Qed.

(** An acquire of the filings client always returns, always sleeps the
    safety margin last, stamps the clock reading it ends at, and touches
    neither the cache nor the request log. *)
Lemma respect_rate_limit_runs (w : world) :
  exists (wait : list Q) (t : Q),
    SECEdgarAPI._respect_rate_limit w
    = (Ret tt,
       {| clock := t;
          sleeps := (1 # 10)%Q :: (wait ++ sleeps w)%list;
          requests := requests w; cache := cache w;
          request_count := request_count w; reset_time := reset_time w;
          yahoo_last_request_time := yahoo_last_request_time w;
          edgar_last_request_time := t |}).
Proof.
  unfold SECEdgarAPI._respect_rate_limit, bind, now, get_state, modify, sleep, ret. cbn.
  destruct (Qgtb (SECEdgarAPI.wait_time _) 0); cbn.
  - eexists [_], _. reflexivity.
  - exists [], (clock w + (1 # 10))%Q. reflexivity.
Qed.

Lemma cache_set_frame (key : string) (v : pyval) (cache_type : string) (w : world) :
  exists (ok : bool) (h : CacheManager.handle),
    cache_set key v cache_type w = (Ret ok, set_cache h w).
Proof.
  unfold cache_set. destruct (CacheManager.set _ _ _ _ _) as [ok h]. eauto.
Qed.

(** When the CIK is served from the cache but the cached list of filings
    is falsy, [get_filings_metadata] acquires the rate limiter and issues
    the request, whatever the provider answers; past that point only the
    cache can still change. *)
Lemma falsy_hit_acquires (E : env) (tk form_type : string) (count : Z) (w : world)
    (cik v : pyval) :
  SECEdgarAPI.get_cik_from_ticker E (PyStr tk) w = (Ret cik, w) ->
  truthy cik = true ->
  CacheManager.get (clock w)
    ("filings_" +:+ tk +:+ "_" +:+ form_type +:+ "_" +:+ SECEdgarAPI.str_of_Z count)
    "SEC_FILING" (cache w) = v ->
  truthy v = false ->
  exists (o : outcome pyval) (h : CacheManager.handle),
    SECEdgarAPI.get_filings_metadata E (PyStr tk) form_type count w
    = (o, set_cache h
            (set_requests
               (("sec:submissions:" +:+ SECEdgarAPI.format_cik cik) :: requests w)
               (snd (SECEdgarAPI._respect_rate_limit w)))).
Proof.
  intros Hcik Htc Hget Htv.
  destruct (respect_rate_limit_runs w) as (wait & t & Hacq).
  unfold SECEdgarAPI.get_filings_metadata, SECEdgarAPI.get_filings_metadata_body,
    try_except.
  unfold bind at 1. rewrite Hcik, Htc. cbn [negb].
  unfold bind at 1. unfold cache_get at 1. rewrite Hget, Htv.
  unfold bind at 1. rewrite Hacq. cbn [snd].
  unfold bind at 1. unfold request at 1, modify at 1.
  unfold bind at 1. unfold now at 1.
  set (w1 := set_requests _ _).
  assert (Hret : forall x : pyval, exists o h,
             (let (o, s') := @ret world pyval x w1 in
              match o with
              | Ret a => (Ret a, s')
              | Raise _ => ret (PyList []) s'
              end) = (o, set_cache h w1)).
  { intros x. exists (Ret x), (cache w1). reflexivity. }
  assert (Hset : forall (key : string) (x : pyval), exists o h,
             (let (o, s') := (exec _ <- cache_set key x "SEC_FILING" ;; ret x) w1 in
              match o with
              | Ret a => (Ret a, s')
              | Raise _ => ret (PyList []) s'
              end) = (o, set_cache h w1)).
  { intros key x. unfold bind.
    destruct (cache_set_frame key x "SEC_FILING" w1) as (ok & h & ->).
    exists (Ret x), h. reflexivity. }
  destruct (sec_submissions E _ _) as [[st js]|e]; cbn [status_code json];
    [|apply Hret].
  destruct (st =? 404); [apply Hret|].
  destruct (negb (st =? 200)); [apply Hret|].
  destruct js as [[fd]|e]; cbn [s_filings]; [|apply Hret].
  destruct fd as [[[|p l]|]|]; first [apply Hret | apply Hset].
Qed.

(** C8, on the failing input: the CIK of AAPL and an empty list of its
    10-K filings are both in the cache and unexpired.  The lookup of the
    filings finds the entry, but the empty list is falsy, so
    [get_filings_metadata] goes on to the rate limiter (a sleep, a new
    [last_request_time]) and issues the upstream request, whatever the
    provider answers. *)
Theorem cached_empty_list_is_refetched (E : env) :
  let w := Examples.fresh 100 (Some Examples.empty_filings_cached) in
  let w' := snd (SECEdgarAPI.get_filings_metadata E (PyStr "AAPL") "10-K" 1 w) in
  Examples.empty_filings_cached !! "filings_AAPL_10-K_1"
  = Some (Examples.stored 0 (PyList []))
  /\ Qgtb (clock w - 0) (inject_Z (Config.cache_expiry "SEC_FILING")) = false
  /\ CacheManager.get (clock w) "filings_AAPL_10-K_1" "SEC_FILING" (cache w) = PyList []
  /\ sleeps w = [] /\ sleeps w' = [(1 # 10)%Q]
  /\ requests w = [] /\ requests w' = ["sec:submissions:0000320193"]
  /\ edgar_last_request_time w = 0%Q
  /\ (edgar_last_request_time w' == 1001 # 10)%Q.
Proof.
  cbv zeta.
  destruct (falsy_hit_acquires E "AAPL" "10-K" 1
              (Examples.fresh 100 (Some Examples.empty_filings_cached))
              (PyStr "0000320193") (PyList [])) as (o & h & ->).
  - apply (proj2 (truthy_hit_returns_without_acquiring E (PyStr "AAPL") "AAPL"
                    (Examples.fresh 100 (Some Examples.empty_filings_cached))
                    eq_refl));
      reflexivity.
  - reflexivity.
  - reflexivity.
  - reflexivity.
  - repeat split.
Qed.

(** ** Implied volatility *)

Lemma Qgtb_true_iff (x y : Q) : Qgtb x y = true <-> (y < x)%Q.
Proof.
  unfold Qgtb. rewrite negb_true_iff. split.
  - intros H. apply Qnot_le_lt. intros Hle. apply Qle_bool_iff in Hle. congruence.
  - intros H. destruct (Qle_bool x y) eqn:Hb; [|reflexivity].
    apply Qle_bool_iff in Hb. exfalso. exact (Qlt_not_le _ _ H Hb).
Qed.

Lemma Qgtb_false_iff (x y : Q) : Qgtb x y = false <-> (x <= y)%Q.
Proof.
  unfold Qgtb. rewrite negb_false_iff. apply Qle_bool_iff.
Qed.

Lemma side_ivs_positive (side : option (list YahooFinanceAPI.contract)) :
  Forall (fun q => (0 < q)%Q) (YahooFinanceAPI.side_ivs side).
Proof.
  destruct side as [l|]; [|constructor]. simpl.
  induction l as [|c l IH]; simpl; [constructor|].
  destruct (YahooFinanceAPI.impliedVolatility c) as [iv|]; simpl; [|exact IH].
  destruct (Qgtb iv 0) eqn:Hiv; simpl; [|exact IH].
  constructor; [apply Qgtb_true_iff; exact Hiv | exact IH].
Qed.

Lemma fold_Qplus_positive (l : list Q) (a : Q) :
  (0 < a)%Q -> Forall (fun q => (0 < q)%Q) l -> (0 < fold_left Qplus l a)%Q.
Proof.
  revert a. induction l as [|x l IH]; intros a Ha Hl; simpl; [exact Ha|].
  inversion Hl as [|? ? Hx Hl']; subst.
  apply IH; [|exact Hl']. lra.
Qed.

Lemma mean_positive (l : list Q) :
  l <> [] -> Forall (fun q => (0 < q)%Q) l ->
  (0 < YahooFinanceAPI.mean_or_zero l)%Q.
Proof.
  destruct l as [|x l]; [congruence|]. intros _ Hl.
  unfold YahooFinanceAPI.mean_or_zero, YahooFinanceAPI.Qsum.
  apply Qlt_shift_div_l.
  - change 0%Q with (inject_Z 0). rewrite <- Zlt_Qlt. simpl. lia.
  - rewrite Qmult_0_l. simpl. inversion Hl; subst.
    apply fold_Qplus_positive; [lra | assumption].
Qed.

Lemma half_positive (x : Q) : (0 < x)%Q -> (0 < x / 2)%Q.
Proof. intros H. apply Qlt_shift_div_l; lra. Qed.

Lemma nonempty_true_iff {A} (l : list A) : YahooFinanceAPI.nonempty l = true <-> l <> [].
Proof. destruct l; simpl; split; congruence. Qed.

(** A per-expiration average is positive exactly when one of the two
    sides has a positive implied volatility. *)
Lemma expiration_average_positive_iff (c : YahooFinanceAPI.chain) :
  Qgtb (YahooFinanceAPI.average_iv (YahooFinanceAPI.expiration_average c)) 0
  = YahooFinanceAPI.nonempty (YahooFinanceAPI.side_ivs (YahooFinanceAPI.calls c))
    || YahooFinanceAPI.nonempty (YahooFinanceAPI.side_ivs (YahooFinanceAPI.puts c)).
Proof.
  unfold YahooFinanceAPI.expiration_average. cbn [YahooFinanceAPI.average_iv].
  pose proof (side_ivs_positive (YahooFinanceAPI.calls c)) as Hc.
  pose proof (side_ivs_positive (YahooFinanceAPI.puts c)) as Hp.
  destruct (YahooFinanceAPI.side_ivs (YahooFinanceAPI.calls c)) as [|x cs] eqn:Ec;
    destruct (YahooFinanceAPI.side_ivs (YahooFinanceAPI.puts c)) as [|y ps] eqn:Ep;
    cbn [YahooFinanceAPI.nonempty orb].
  - reflexivity.
  - apply Qgtb_true_iff.
    pose proof (mean_positive (y :: ps) ltac:(congruence) Hp) as H.
    change (YahooFinanceAPI.mean_or_zero []) with 0%Q. apply half_positive. lra.
  - apply Qgtb_true_iff.
    pose proof (mean_positive (x :: cs) ltac:(congruence) Hc) as H.
    change (YahooFinanceAPI.mean_or_zero []) with 0%Q. apply half_positive. lra.
  - apply Qgtb_true_iff.
    pose proof (mean_positive (x :: cs) ltac:(congruence) Hc) as H.
    pose proof (mean_positive (y :: ps) ltac:(congruence) Hp) as H'.
    apply half_positive. lra.
Qed.

Lemma filter_map_commute {A B} (f : A -> B) (p : B -> bool) (q : A -> bool) (l : list A) :
  (forall x, p (f x) = q x) ->
  List.filter p (map f l) = map f (List.filter q l).
Proof.
  intros H. induction l as [|x l IH]; simpl; [reflexivity|].
  rewrite H. destruct (q x); simpl; now rewrite IH.
Qed.

(** C2 (amended).  For every options chain, each expiration's average is
    half the sum of the mean over the calls with positive implied
    volatility and the mean over the puts with positive implied
    volatility, where a side without any positive value enters that sum as
    zero (so a one-sided expiration gets half the mean of its only side);
    an expiration without any positive value on either side gets 0 and is
    left out of the overall figure; and the overall [average_iv] is the
    mean of the averages of the remaining expirations (0 when none
    remains). *)
Theorem missing_side_counts_as_zero (options_data : list (string * YahooFinanceAPI.chain)) :
  let has_iv (dc : string * YahooFinanceAPI.chain) :=
    YahooFinanceAPI.nonempty (YahooFinanceAPI.side_ivs (YahooFinanceAPI.calls (snd dc)))
    || YahooFinanceAPI.nonempty (YahooFinanceAPI.side_ivs (YahooFinanceAPI.puts (snd dc))) in
  let average (dc : string * YahooFinanceAPI.chain) :=
    YahooFinanceAPI.average_iv (YahooFinanceAPI.expiration_average (snd dc)) in
  (forall c : YahooFinanceAPI.chain,
      let cs := YahooFinanceAPI.side_ivs (YahooFinanceAPI.calls c) in
      let ps := YahooFinanceAPI.side_ivs (YahooFinanceAPI.puts c) in
      let a := YahooFinanceAPI.average_iv (YahooFinanceAPI.expiration_average c) in
      (cs <> [] -> ps <> [] ->
       a == (YahooFinanceAPI.mean_or_zero cs + YahooFinanceAPI.mean_or_zero ps) / 2)%Q
      /\ (cs <> [] -> ps = [] -> a == YahooFinanceAPI.mean_or_zero cs / 2)%Q
      /\ (cs = [] -> ps <> [] -> a == YahooFinanceAPI.mean_or_zero ps / 2)%Q
      /\ (cs = [] -> ps = [] -> a = 0%Q))
  /\ YahooFinanceAPI.all_ivs options_data = map average (List.filter has_iv options_data)
  /\ YahooFinanceAPI.overall_average_iv (YahooFinanceAPI.calculate_implied_volatility options_data)
     = YahooFinanceAPI.mean_or_zero (map average (List.filter has_iv options_data)).
Proof.
  cbv zeta.
  assert (Hall : YahooFinanceAPI.all_ivs options_data
                 = map (fun dc => YahooFinanceAPI.average_iv
                                    (YahooFinanceAPI.expiration_average (snd dc)))
                     (List.filter
                        (fun dc => YahooFinanceAPI.nonempty
                                     (YahooFinanceAPI.side_ivs (YahooFinanceAPI.calls (snd dc)))
                                   || YahooFinanceAPI.nonempty
                                        (YahooFinanceAPI.side_ivs (YahooFinanceAPI.puts (snd dc))))
                        options_data)).
  { unfold YahooFinanceAPI.all_ivs. apply filter_map_commute.
    intros dc. apply expiration_average_positive_iff. }
  split; [|split; [exact Hall|]].
  - intros c. unfold YahooFinanceAPI.expiration_average. cbn [YahooFinanceAPI.average_iv].
    repeat split.
    + intros Hc Hp. apply nonempty_true_iff in Hc. rewrite Hc. reflexivity.
    + intros Hc Hp. apply nonempty_true_iff in Hc. rewrite Hc, Hp. cbn [orb].
      change (YahooFinanceAPI.mean_or_zero []) with 0%Q.
      rewrite Qplus_0_r. reflexivity.
    + intros Hc Hp. apply nonempty_true_iff in Hp. rewrite Hp, Hc.
      cbn [orb YahooFinanceAPI.nonempty].
      change (YahooFinanceAPI.mean_or_zero []) with 0%Q.
      rewrite Qplus_0_l. reflexivity.
    + intros -> ->. reflexivity.
  - unfold YahooFinanceAPI.calculate_implied_volatility.
    cbn [YahooFinanceAPI.overall_average_iv]. rewrite Hall. reflexivity.
Qed.

Lemma missing_side_counts_as_zero_witness :
  let both := {| YahooFinanceAPI.calls :=
                   Some [ {| YahooFinanceAPI.impliedVolatility := Some (2 # 10)%Q |};
                          {| YahooFinanceAPI.impliedVolatility := Some (3 # 10)%Q |} ];
                 YahooFinanceAPI.puts :=
                   Some [ {| YahooFinanceAPI.impliedVolatility := Some (1 # 10)%Q |} ] |} in
  let calls_only := {| YahooFinanceAPI.calls :=
                         Some [ {| YahooFinanceAPI.impliedVolatility := Some (2 # 10)%Q |};
                                {| YahooFinanceAPI.impliedVolatility := Some (3 # 10)%Q |} ];
                       YahooFinanceAPI.puts := Some [] |} in
  (YahooFinanceAPI.average_iv (YahooFinanceAPI.expiration_average both)
   == (YahooFinanceAPI.mean_or_zero (YahooFinanceAPI.side_ivs (YahooFinanceAPI.calls both))
       + YahooFinanceAPI.mean_or_zero (YahooFinanceAPI.side_ivs (YahooFinanceAPI.puts both)))
      / 2)%Q
  /\ (YahooFinanceAPI.average_iv (YahooFinanceAPI.expiration_average calls_only)
      == YahooFinanceAPI.mean_or_zero
           (YahooFinanceAPI.side_ivs (YahooFinanceAPI.calls calls_only)) / 2)%Q.
Proof.
  intros both calls_only.
  pose proof (missing_side_counts_as_zero [("2024-01-19", both)]) as H.
  cbv zeta in H. destruct H as [H _]. split.
  - destruct (H both) as (H1 & _). apply H1; discriminate.
  - destruct (H calls_only) as (_ & H2 & _). apply H2; [discriminate | reflexivity].
Defined.

(** The example of the design document: calls at 0.2 and 0.3 and a put at
    0.1 average to 0.175. *)
Example two_sided_average :
  (YahooFinanceAPI.average_iv
     (YahooFinanceAPI.expiration_average
        {| YahooFinanceAPI.calls :=
             Some [ {| YahooFinanceAPI.impliedVolatility := Some (2 # 10)%Q |};
                    {| YahooFinanceAPI.impliedVolatility := Some (3 # 10)%Q |} ];
           YahooFinanceAPI.puts :=
             Some [ {| YahooFinanceAPI.impliedVolatility := Some (1 # 10)%Q |} ] |})
   == 175 # 1000)%Q.
Proof. reflexivity. Qed.

(** C2, as stated, fails: with calls at 0.2 and 0.3 and no put, the side
    without values is not left out of the average but counted as zero, so
    the expiration's average is 0.125 and not the 0.25 that leaving the
    side out gives; the overall figure is 0.125 as well. *)
Lemma one_sided_average_is_halved :
  let c := {| YahooFinanceAPI.calls :=
                Some [ {| YahooFinanceAPI.impliedVolatility := Some (2 # 10)%Q |};
                       {| YahooFinanceAPI.impliedVolatility := Some (3 # 10)%Q |} ];
              YahooFinanceAPI.puts := None |} in
  (YahooFinanceAPI.average_iv (YahooFinanceAPI.expiration_average c) == 125 # 1000)%Q
  /\ (YahooFinanceAPI.expiration_average_excluding c == 25 # 100)%Q
  /\ ~ (YahooFinanceAPI.average_iv (YahooFinanceAPI.expiration_average c)
        == YahooFinanceAPI.expiration_average_excluding c)%Q
  /\ (YahooFinanceAPI.overall_average_iv
        (YahooFinanceAPI.calculate_implied_volatility [("2024-01-19", c)]) == 125 # 1000)%Q.
Proof.
  cbv zeta. split; [reflexivity|]. split; [reflexivity|]. split; [|reflexivity].
  intros H. vm_compute in H. discriminate.
Qed.

(** ** Key financials *)

Lemma ascii_compare_refl (a : ascii) : Ascii.compare a a = Eq.
Proof. unfold Ascii.compare. apply N.compare_refl. Qed.

Lemma ascii_compare_lt_trans (a b c : ascii) :
  Ascii.compare a b = Lt -> Ascii.compare b c = Lt -> Ascii.compare a c = Lt.
Proof.
  unfold Ascii.compare. rewrite !N.compare_lt_iff. apply N.lt_trans.
Qed.

Lemma string_leb_trans (s1 s2 s3 : string) :
  String.leb s1 s2 = true -> String.leb s2 s3 = true -> String.leb s1 s3 = true.
Proof.
  unfold String.leb. revert s2 s3.
  induction s1 as [|a s1 IH]; intros [|b s2] [|c s3]; simpl; try easy.
  destruct (Ascii.compare a b) eqn:Eab; try easy;
    destruct (Ascii.compare b c) eqn:Ebc; try easy.
  - apply Ascii.compare_eq_iff in Eab, Ebc. subst. rewrite ascii_compare_refl. apply IH.
  - apply Ascii.compare_eq_iff in Eab. subst. now rewrite Ebc.
  - apply Ascii.compare_eq_iff in Ebc. subst. now rewrite Eab.
  - now rewrite (ascii_compare_lt_trans a b c Eab Ebc).
Qed.

Lemma not_older_trans (a b c : SECEdgarAPI.fin_entry) :
  SECEdgarAPI.not_older a b -> SECEdgarAPI.not_older b c -> SECEdgarAPI.not_older a c.
Proof.
  unfold SECEdgarAPI.not_older. intros Hab Hbc. exact (string_leb_trans _ _ _ Hbc Hab).
Qed.

Lemma insert_desc_perm (x : SECEdgarAPI.fin_entry) (l : list SECEdgarAPI.fin_entry) :
  Permutation (SECEdgarAPI.insert_desc x l) (x :: l).
Proof.
  induction l as [|y l IH]; simpl; [reflexivity|].
  destruct (String.leb _ _); [reflexivity|].
  rewrite IH. apply perm_swap.
Qed.

Lemma sorted_desc_perm (l : list SECEdgarAPI.fin_entry) :
  Permutation (SECEdgarAPI.sorted_desc l) l.
Proof.
  induction l as [|x l IH]; simpl; [reflexivity|].
  rewrite insert_desc_perm. now constructor.
Qed.

Lemma insert_desc_sorted (x : SECEdgarAPI.fin_entry) (l : list SECEdgarAPI.fin_entry) :
  StronglySorted SECEdgarAPI.not_older l ->
  StronglySorted SECEdgarAPI.not_older (SECEdgarAPI.insert_desc x l).
Proof.
  induction 1 as [|y l Hl IH Hy]; simpl.
  - repeat constructor.
  - destruct (String.leb (SECEdgarAPI.filing_date y) (SECEdgarAPI.filing_date x)) eqn:Hle.
    + constructor; [constructor; assumption|].
      constructor; [exact Hle|].
      eapply List.Forall_impl; [|exact Hy]. intros z Hz.
      exact (not_older_trans x y z Hle Hz).
    + constructor; [exact IH|].
      assert (Hxy : SECEdgarAPI.not_older y x).
      { unfold SECEdgarAPI.not_older.
        destruct (String.leb_total (SECEdgarAPI.filing_date x) (SECEdgarAPI.filing_date y));
          congruence. }
      eapply Permutation_Forall; [symmetry; apply insert_desc_perm|].
      constructor; assumption.
Qed.

Lemma sorted_desc_sorted (l : list SECEdgarAPI.fin_entry) :
  StronglySorted SECEdgarAPI.not_older (SECEdgarAPI.sorted_desc l).
Proof.
  induction l as [|x l IH]; simpl; [constructor | now apply insert_desc_sorted].
Qed.

(** Where the entries of a tag come from: 10-K facts of that tag. *)
Lemma in_tag_entries (t : tag) (e : SECEdgarAPI.fin_entry) :
  In e (SECEdgarAPI.tag_entries t) ->
  exists f, SECEdgarAPI.fact_of_tag t f /\ f_form f = Some "10-K"
            /\ e = SECEdgarAPI.entry_of f.
Proof.
  unfold SECEdgarAPI.tag_entries, SECEdgarAPI.fact_of_tag.
  destruct (t_units t) as [units|]; [|intros []].
  rewrite in_flat_map. intros (unit & _ & He).
  apply in_map_iff in He as (f & <- & Hf).
  apply filter_In in Hf as [Hf H10].
  destruct (SECEdgarAPI.assoc unit units) as [facts|] eqn:Hu; [|destruct Hf].
  exists f. split; [exists units, unit, facts; auto|]. split; [|reflexivity].
  unfold SECEdgarAPI.is_10k in H10. destruct (f_form f) as [s|]; [|discriminate].
  apply String.eqb_eq in H10. now subst.
Qed.

(** C1 (amended).  For every company-facts payload that has the [facts]
    key, [extract_key_financials] builds the revenue series by pulling the
    entries of every one of the tags Revenue, Revenues, SalesRevenueNet
    that is present (a merge of the tags, in that order), keeps only
    entries whose form equals "10-K", and returns each series sorted by
    filing date descending (most recent first). *)
Theorem revenue_merges_every_present_tag (tk : pyval) (doc : company_facts)
    (taxonomies : list (string * list (string * tag))) :
  cf_facts doc = Some taxonomies ->
  let us_gaap := default [] (SECEdgarAPI.assoc "us-gaap" taxonomies) in
  exists fin,
    SECEdgarAPI.extract_key_financials tk (Some doc) = Some fin
    /\ Permutation (SECEdgarAPI.revenue fin)
         (SECEdgarAPI.entries_of_key us_gaap "Revenue"
          ++ SECEdgarAPI.entries_of_key us_gaap "Revenues"
          ++ SECEdgarAPI.entries_of_key us_gaap "SalesRevenueNet")%list
    /\ (forall e, In e (SECEdgarAPI.revenue fin) ->
                  exists key t f,
                    In key SECEdgarAPI.revenue_keys
                    /\ SECEdgarAPI.assoc key us_gaap = Some t
                    /\ SECEdgarAPI.fact_of_tag t f
                    /\ f_form f = Some "10-K"
                    /\ e = SECEdgarAPI.entry_of f)
    /\ StronglySorted SECEdgarAPI.not_older (SECEdgarAPI.revenue fin)
    /\ StronglySorted SECEdgarAPI.not_older (SECEdgarAPI.net_income fin)
    /\ StronglySorted SECEdgarAPI.not_older (SECEdgarAPI.eps fin).
Proof.
  intros Hdoc us_gaap.
  unfold SECEdgarAPI.extract_key_financials. rewrite Hdoc. fold us_gaap.
  eexists. split; [reflexivity|].
  cbn [SECEdgarAPI.revenue SECEdgarAPI.net_income SECEdgarAPI.eps].
  assert (Hperm : Permutation (SECEdgarAPI.sorted_desc (SECEdgarAPI.revenue_entries us_gaap))
                    (SECEdgarAPI.entries_of_key us_gaap "Revenue"
                     ++ SECEdgarAPI.entries_of_key us_gaap "Revenues"
                     ++ SECEdgarAPI.entries_of_key us_gaap "SalesRevenueNet")%list).
  { rewrite sorted_desc_perm. unfold SECEdgarAPI.revenue_entries, SECEdgarAPI.revenue_keys.
    cbn [flat_map]. now rewrite app_nil_r. }
  split; [exact Hperm|]. split; [|repeat split; apply sorted_desc_sorted].
  intros e He.
  apply (Permutation_in _ (sorted_desc_perm _)) in He.
  unfold SECEdgarAPI.revenue_entries in He.
  apply in_flat_map in He as (key & Hkey & He).
  unfold SECEdgarAPI.entries_of_key in He.
  destruct (SECEdgarAPI.assoc key us_gaap) as [t|] eqn:Ht; [|destruct He].
  destruct (in_tag_entries t e He) as (f & Hf & H10 & ->).
  exists key, t, f. auto.
Qed.

Lemma revenue_merges_every_present_tag_witness :
  exists fin,
    SECEdgarAPI.extract_key_financials (PyStr "ACME") (Some Examples.two_revenue_tags)
    = Some fin
    /\ StronglySorted SECEdgarAPI.not_older (SECEdgarAPI.revenue fin)
    /\ length (SECEdgarAPI.revenue fin) = 2%nat.
Proof.
  destruct (revenue_merges_every_present_tag (PyStr "ACME") Examples.two_revenue_tags
              _ eq_refl) as (fin & Hfin & Hperm & _ & Hsorted & _).
  exists fin. split; [exact Hfin|]. split; [exact Hsorted|].
  rewrite (Permutation_length Hperm). reflexivity.
Defined.

(** C1, as stated, fails: when a payload reports revenue under both
    [Revenue] and [Revenues], the series holds the 10-K entries of both
    tags, not those of the first matching tag only. *)
Lemma revenue_is_merged_across_tags :
  let us_gaap :=
    default [] (SECEdgarAPI.assoc "us-gaap"
                  (default [] (cf_facts Examples.two_revenue_tags))) in
  let from_revenue := SECEdgarAPI.entry_of (Examples.annual 100 "2020-02-01") in
  let from_revenues := SECEdgarAPI.entry_of (Examples.annual 120 "2021-02-01") in
  option_map SECEdgarAPI.revenue
    (SECEdgarAPI.extract_key_financials (PyStr "ACME") (Some Examples.two_revenue_tags))
  = Some [from_revenues; from_revenue]
  /\ SECEdgarAPI.sorted_desc
       (SECEdgarAPI.first_matching_entries us_gaap SECEdgarAPI.revenue_keys)
     = [from_revenue]
  /\ option_map SECEdgarAPI.revenue
       (SECEdgarAPI.extract_key_financials (PyStr "ACME") (Some Examples.two_revenue_tags))
     <> Some (SECEdgarAPI.sorted_desc
                (SECEdgarAPI.first_matching_entries us_gaap SECEdgarAPI.revenue_keys)).
Proof.
  cbv zeta. vm_compute. repeat split. discriminate.
Qed.

(** ** The aggregator *)

Section AggregatorFacts.
Variable E : env.
Variable C : FinancialDataAPI.clients.

Import FinancialDataAPI.

Lemma bind_assoc {S A B D} (m : M S A) (k : A -> M S B) (k' : B -> M S D) (s : S) :
  bind (bind m k) k' s = bind m (fun a => bind (k a) k') s.
Proof. unfold bind. destruct (m s) as [[a|e] s']; reflexivity. Qed.

Lemma gather_split (ticker : pyval) (s : agg) :
  gather C ticker s = (exec _ <- gather_market C ticker ;; gather_filings C ticker) s.
Proof.
  unfold gather, gather_market, gather_filings, bind.
  repeat (match goal with
          | |- context [match ?f ?x with _ => _ end] =>
            destruct (f x) as [[[]|?] ?]
          end; cbv beta iota; try reflexivity).
Qed.

Lemma keeps_ret {A} (P : composite -> Prop) (a : A) : keeps P (ret a).
Proof. intros s o s' H HP. inversion H; subst. exact HP. Qed.

Lemma keeps_lift {A} (P : composite -> Prop) (o : outcome A) : keeps P (lift o).
Proof. intros s o' s' H HP. inversion H; subst. exact HP. Qed.

Lemma keeps_call {A} (P : composite -> Prop) (m : M world A) : keeps P (call m).
Proof.
  intros s o s' H HP. unfold call in H.
  destruct (m (fst s)) as [o' w']. inversion H; subst. exact HP.
Qed.

Lemma keeps_store (P : composite -> Prop) (f : composite -> composite) :
  (forall c, P c -> P (f c)) -> keeps P (store f).
Proof. intros Hf s o s' H HP. inversion H; subst. apply Hf, HP. Qed.

Lemma keeps_bind {A B} (P : composite -> Prop) (m : M agg A) (k : A -> M agg B) :
  keeps P m -> (forall a, keeps P (k a)) -> keeps P (bind m k).
Proof.
  intros Hm Hk s o s' H HP. unfold bind in H.
  destruct (m s) as [[a|e] s1] eqn:Hms.
  - eapply Hk; [exact H|]. eapply Hm; eauto.
  - inversion H; subst. eapply Hm; eauto.
Qed.

Lemma keeps_if {A} (P : composite -> Prop) (b : bool) (m1 m2 : M agg A) :
  keeps P m1 -> keeps P m2 -> keeps P (if b then m1 else m2).
Proof. destruct b; auto. Qed.

(** Walk through a computation of the aggregator, one construct at a
    time. *)
Ltac keeps_steps :=
  repeat first
    [ apply keeps_bind; [|intros ?]
    | apply keeps_call
    | apply keeps_if
    | apply keeps_ret
    | apply keeps_lift
    | apply keeps_store; solve [auto]
    | match goal with
      | |- keeps _ (match ?h with _ => _ end) => destruct h
      end ].

(** The market-data steps after the first one change only the fields
    [historical_data], [options_data] and [implied_volatility]. *)
Lemma market_tail_keeps (P : composite -> Prop) (ticker : pyval) :
  (forall v c, P c -> P (set_historical_data v c)) ->
  (forall v c, P c -> P (set_options_data v c)) ->
  (forall v c, P c -> P (set_implied_volatility v c)) ->
  keeps P (exec _ <- pause ;;
           exec _ <- step_historical C ticker ;;
           exec _ <- pause ;;
           exec _ <- step_options C ticker ;;
           exec _ <- pause ;;
           exec _ <- step_implied_volatility C ticker ;;
           pause).
Proof.
  intros Hh Ho Hi.
  unfold pause, step_historical, step_options, step_implied_volatility.
  keeps_steps.
Qed.

(** What the handler of [get_stock_data] amounts to: the call returns the
    dict as the [try] block left it, with the process state it reached. *)
Lemma get_stock_data_run (s : string) (w : world) :
  get_stock_data E C (PyStr s) w
  = (Ret (snd (snd (gather C (PyStr (upper s)) (w, defaults (isoformat E (clock w)))))),
     fst (snd (gather C (PyStr (upper s)) (w, defaults (isoformat E (clock w)))))).
Proof.
  unfold get_stock_data, lift, now, ticker_upper.
  unfold bind at 1 2. unfold try_except, bind, current.
  destruct (gather C _ _) as [[[]|e] [w' c']]; reflexivity.
Qed.

(** C3.  For a ticker that is a string, [get_stock_data] always returns a
    record: the dict as the [try] block left it.  When the very first
    upstream call raises, that is the record of defaults.  When the
    market-data steps went through with a non-empty ticker info and the
    filings client then raises on the 10-K request, the record returned is
    the one built so far: [basic_info] holds the ticker info and
    [recent_10k], [recent_8k], [key_financials] are at their defaults
    [None], [[]], [None]. *)
Theorem get_stock_data_returns_partial_record (s : string) (w : world) :
  let ticker := PyStr (upper s) in
  let start := (w, defaults (isoformat E (clock w))) in
  (exists record w',
      get_stock_data E C (PyStr s) w = (Ret record, w')
      /\ (w', record) = snd (gather C ticker start))
  /\ (forall e w1,
         yahoo_get_ticker_info C ticker w = (Raise e, w1) ->
         get_stock_data E C (PyStr s) w = (Ret (defaults (isoformat E (clock w))), w1))
  /\ (forall info w1 w2 c2 e w3,
         yahoo_get_ticker_info C ticker w = (Ret info, w1) ->
         truthy info = true ->
         gather_market C ticker start = (Ret tt, (w2, c2)) ->
         edgar_get_recent_10k C ticker w2 = (Raise e, w3) ->
         get_stock_data E C (PyStr s) w = (Ret c2, w3)
         /\ basic_info c2 = info
         /\ recent_10k c2 = PyNone
         /\ recent_8k c2 = PyList []
         /\ key_financials c2 = PyNone).
Proof.
  cbv zeta. split; [|split].
  - rewrite get_stock_data_run.
    destruct (gather C _ _) as [o [w' c']]. exists c', w'. split; reflexivity.
  - intros e w1 Hinfo.
    assert (Hg : gather C (PyStr (upper s)) (w, defaults (isoformat E (clock w)))
                 = (Raise e, (w1, defaults (isoformat E (clock w))))).
    { unfold gather, step_basic_info, bind, call. cbn [fst snd].
      rewrite Hinfo. reflexivity. }
    rewrite get_stock_data_run, Hg. reflexivity.
  - intros info w1 w2 c2 e w3 Hinfo Htruthy Hmarket H10k.
    assert (Hg : gather C (PyStr (upper s)) (w, defaults (isoformat E (clock w)))
                 = (Raise e, (w3, c2))).
    { rewrite gather_split. unfold bind at 1. rewrite Hmarket.
      unfold gather_filings, step_recent_10k, bind, call. cbn [fst snd].
      rewrite H10k. reflexivity. }
    rewrite get_stock_data_run, Hg. split; [reflexivity|].
    pose (P := fun c : composite =>
                 basic_info c = info /\ recent_10k c = PyNone
                 /\ recent_8k c = PyList [] /\ key_financials c = PyNone).
    change (P c2).
    unfold gather_market in Hmarket. unfold bind at 1 in Hmarket.
    unfold step_basic_info in Hmarket. unfold bind at 1 in Hmarket.
    unfold call at 1 in Hmarket. cbn [fst snd] in Hmarket.
    rewrite Hinfo, Htruthy in Hmarket. unfold store at 1, modify at 1 in Hmarket.
    cbn [fst snd] in Hmarket.
    refine (market_tail_keeps P _ _ _ _ _ _ _ Hmarket _).
    + intros v c Hc. exact Hc.
    + intros v c Hc. exact Hc.
    + intros v c Hc. exact Hc.
    + repeat split.
Qed.


End AggregatorFacts.

Lemma get_stock_data_returns_partial_record_witness :
  FinancialDataAPI.get_stock_data Examples.unreachable Examples.everything_down
    (PyStr "aapl") (Examples.fresh 0 None)
  = (Ret (FinancialDataAPI.defaults "2024-01-01T00:00:00"), Examples.fresh 0 None)
  /\ exists record w',
       FinancialDataAPI.get_stock_data Examples.unreachable Examples.filings_down
         (PyStr "aapl") (Examples.fresh 0 None) = (Ret record, w')
       /\ FinancialDataAPI.basic_info record = PyDict [("symbol", PyStr "AAPL")]
       /\ FinancialDataAPI.recent_10k record = PyNone
       /\ FinancialDataAPI.recent_8k record = PyList []
       /\ FinancialDataAPI.key_financials record = PyNone.
Proof.
  split.
  - apply (proj1 (proj2 (get_stock_data_returns_partial_record
                           Examples.unreachable Examples.everything_down
                           "aapl" (Examples.fresh 0 None)))
             UpstreamError (Examples.fresh 0 None)).
    reflexivity.
  - pose proof (proj2 (proj2 (get_stock_data_returns_partial_record
                                Examples.unreachable Examples.filings_down
                                "aapl" (Examples.fresh 0 None)))) as H.
    cbv zeta in H.
    eexists. eexists. eapply H; reflexivity.
Defined.


(** * Further properties of the code *)

(** ** The validator *)

Lemma upper_ascii_idempotent (c : ascii) : upper_ascii (upper_ascii c) = upper_ascii c.
Proof. destruct c as [[] [] [] [] [] [] [] []]; reflexivity. Qed.

Lemma upper_idempotent (s : string) : upper (upper s) = upper s.
Proof.
  induction s as [|c s IH]; simpl; [reflexivity|].
  now rewrite upper_ascii_idempotent, IH.
Qed.

Lemma upper_empty_iff (s : string) : upper s = "" <-> s = "".
Proof. destruct s; simpl; split; congruence. Qed.

Lemma validate_ticker_Ret (ticker : pyval) (tk : string) :
  DataValidator.validate_ticker ticker = Ret tk ->
  exists s, ticker = PyStr s /\ s <> "" /\ tk = upper s.
Proof.
  destruct ticker; try discriminate. unfold DataValidator.validate_ticker. cbn [truthy].
  destruct s as [|c s]; [discriminate|]. intros H. inversion H.
  exists (String c s). repeat split. discriminate.
Qed.

Lemma validate_ticker_nonempty (s : string) :
  s <> "" -> DataValidator.validate_ticker (PyStr s) = Ret (upper s).
Proof. destruct s; [congruence | reflexivity]. Qed.

(** The validated form of a ticker is a fixed point of the validation:
    it is accepted, comes back unchanged, and is all upper case. *)
Theorem validate_ticker_idempotent (ticker : pyval) (tk : string) :
  DataValidator.validate_ticker ticker = Ret tk ->
  DataValidator.validate_ticker (PyStr tk) = Ret tk /\ upper tk = tk.
Proof.
  intros H. destruct (validate_ticker_Ret ticker tk H) as (s & -> & Hs & ->).
  rewrite upper_idempotent. split; [|reflexivity].
  rewrite validate_ticker_nonempty, upper_idempotent; [reflexivity|].
  intros Hu. apply (proj1 (upper_empty_iff s)) in Hu. contradiction.
Qed.

Lemma validate_ticker_idempotent_witness :
  DataValidator.validate_ticker (PyStr "AAPL") = Ret "AAPL" /\ upper "AAPL" = "AAPL".
Proof.
  apply (validate_ticker_idempotent (PyStr "aapl") "AAPL"). reflexivity.
Defined.

(** A ticker is validated the same way in any letter case, so the
    market-data methods and the CIK lookup do not distinguish cases. *)
Theorem ticker_case_is_ignored (E : env) (s : string) (w : world) :
  DataValidator.validate_ticker (PyStr s) = DataValidator.validate_ticker (PyStr (upper s))
  /\ YahooFinanceAPI.get_ticker_info E (PyStr s) w
     = YahooFinanceAPI.get_ticker_info E (PyStr (upper s)) w
  /\ SECEdgarAPI.get_cik_from_ticker E (PyStr s) w
     = SECEdgarAPI.get_cik_from_ticker E (PyStr (upper s)) w
  /\ (forall start_date end_date period interval,
         YahooFinanceAPI.get_historical_data E (PyStr s) start_date end_date period interval w
         = YahooFinanceAPI.get_historical_data E (PyStr (upper s)) start_date end_date
             period interval w).
Proof.
  assert (Hv : DataValidator.validate_ticker (PyStr s)
               = DataValidator.validate_ticker (PyStr (upper s))).
  { unfold DataValidator.validate_ticker. cbn [truthy].
    destruct s as [|c s]; [reflexivity|]. cbn. now rewrite upper_ascii_idempotent, upper_idempotent. }
  split; [exact Hv|].
  unfold YahooFinanceAPI.get_ticker_info, YahooFinanceAPI.get_ticker_info_body,
    SECEdgarAPI.get_cik_from_ticker, SECEdgarAPI.get_cik_from_ticker_body,
    YahooFinanceAPI.get_historical_data, YahooFinanceAPI.get_historical_data_body.
  rewrite Hv. repeat split.
Qed.



(** [validate_sec_filing] either rejects its argument or returns it
    unchanged, and then it is a dict that has the four required keys;
    validating twice is the same as validating once. *)
Theorem validate_sec_filing_idempotent (filing : pyval) :
  (DataValidator.validate_sec_filing filing = PyNone
   \/ (DataValidator.validate_sec_filing filing = filing
       /\ exists d, filing = PyDict d
                    /\ Forall (fun field => DataValidator.has_key field d = true)
                         DataValidator.required_fields))
  /\ DataValidator.validate_sec_filing (DataValidator.validate_sec_filing filing)
     = DataValidator.validate_sec_filing filing.
Proof.
  destruct filing; try (split; [left|]; reflexivity).
  assert (Hv : DataValidator.validate_sec_filing (PyDict d)
               = if truthy (PyDict d)
                 then if forallb (fun field => DataValidator.has_key field d)
                           DataValidator.required_fields
                      then PyDict d else PyNone
                 else PyNone) by reflexivity.
  destruct (truthy (PyDict d)) eqn:Ht;
    [|rewrite Hv; split; [left|]; reflexivity].
  destruct (forallb _ DataValidator.required_fields) eqn:Hall;
    [|rewrite Hv; split; [left|]; reflexivity].
  rewrite !Hv. split; [|reflexivity].
  right. split; [reflexivity|]. exists d. split; [reflexivity|].
  apply Forall_forall. intros k Hk. apply list_elem_of_In in Hk.
  exact (proj1 (forallb_forall _ _) Hall k Hk).
Qed.

Lemma collect_forall (P : pyval -> Prop) (form_type : string) (count : Z) (tk : string)
    (cik : pyval) (forms accs dates docs : list string) (acc : list pyval) :
  (forall f a d doc, f = form_type -> P (SECEdgarAPI.filing_dict f a d doc tk cik)) ->
  Forall P acc ->
  Forall P (SECEdgarAPI.collect form_type count tk cik forms accs dates docs acc).
Proof.
  intros Hbuilt. revert accs dates docs acc.
  induction forms as [|f forms IH]; intros accs dates docs acc Hacc; simpl; [exact Hacc|].
  destruct accs as [|a accs]; [exact Hacc|].
  destruct dates as [|d dates]; [exact Hacc|].
  destruct (String.eqb f form_type) eqn:Hf; [|apply IH; exact Hacc].
  apply String.eqb_eq in Hf.
  assert (Hacc' : Forall P (acc ++ [SECEdgarAPI.filing_dict f a d
                                      match docs with [] => "" | p :: _ => p end tk cik])%list).
  { apply Forall_app. split; [exact Hacc|]. constructor; [|constructor]. now apply Hbuilt. }
  destruct (count <=? _); [exact Hacc' | apply IH; exact Hacc'].
Qed.

(** Every filing that the loop of [get_filings_metadata] builds is of the
    requested form type and is accepted unchanged by
    [validate_sec_filing]. *)
Theorem collected_filings_are_valid (form_type : string) (count : Z) (tk : string)
    (cik : pyval) (forms accs dates docs : list string) :
  Forall (fun filing =>
            DataValidator.validate_sec_filing filing = filing
            /\ exists d, filing = PyDict d /\ dict_get d "form" PyNone = PyStr form_type)
         (SECEdgarAPI.collect form_type count tk cik forms accs dates docs []).
Proof.
  apply collect_forall; [|constructor].
  intros f a d doc ->. split; [reflexivity|].
  eexists. split; reflexivity.
Qed.

Lemma collect_length (form_type : string) (count : Z) (tk : string) (cik : pyval)
    (forms accs dates docs : list string) (acc : list pyval) :
  Z.of_nat (List.length acc) < Z.max count 1 ->
  Z.of_nat (List.length
              (SECEdgarAPI.collect form_type count tk cik forms accs dates docs acc))
  <= Z.max count 1.
Proof.
  revert accs dates docs acc.
  induction forms as [|f forms IH]; intros accs dates docs acc Hacc; simpl; [lia|].
  destruct accs as [|a accs]; [lia|].
  destruct dates as [|d dates]; [lia|].
  destruct (String.eqb f form_type); [|apply IH; exact Hacc].
  rewrite length_app. cbn [List.length].
  destruct (count <=? Z.of_nat (List.length acc + 1)) eqn:Hc.
  - rewrite length_app. cbn [List.length]. lia.
  - apply Z.leb_gt in Hc. apply IH. rewrite length_app. cbn [List.length]. lia.
Qed.

(** The loop of [get_filings_metadata] stops at [count] filings; because
    it checks the bound only after appending, a [count] of zero or less
    still lets one filing through. *)
Theorem collected_filings_bounded (form_type : string) (count : Z) (tk : string)
    (cik : pyval) (forms accs dates docs : list string) :
  Z.of_nat (List.length
              (SECEdgarAPI.collect form_type count tk cik forms accs dates docs []))
  <= Z.max count 1.
Proof. apply collect_length. cbn. lia. Qed.

(** ** Options-chain validation *)

Lemma valid_options_kept (items kept : list (string * pyval)) :
  DataValidator.valid_options items = Ret kept ->
  Forall (fun dc => DataValidator.chain_valid (snd dc) = Ret true) kept
  /\ sublist kept items.
Proof.
  revert kept. induction items as [|[date chain] items IH]; intros kept H; simpl in H.
  - inversion H. split; constructor.
  - destruct (DataValidator.chain_valid chain) as [keep|e] eqn:Hc; [|discriminate].
    destruct (DataValidator.valid_options items) as [kept'|e]; [|discriminate].
    destruct (IH kept' eq_refl) as [Hall Hsub].
    inversion H; subst. destruct keep.
    + split; [constructor; [exact Hc | exact Hall] | now constructor].
    + split; [exact Hall | now constructor].
Qed.

Lemma valid_options_fixed (items : list (string * pyval)) :
  Forall (fun dc => DataValidator.chain_valid (snd dc) = Ret true) items ->
  DataValidator.valid_options items = Ret items.
Proof.
  induction 1 as [|[date chain] items Hc _ IH]; simpl; [reflexivity|].
  simpl in Hc. now rewrite Hc, IH.
Qed.

Lemma chain_valid_true (chain : pyval) :
  DataValidator.chain_valid chain = Ret true ->
  exists d, chain = PyDict d
            /\ ((exists x l, dict_get d "calls" PyNone = PyList (x :: l))
                \/ (exists x l, dict_get d "puts" PyNone = PyList (x :: l))).
Proof.
  unfold DataValidator.chain_valid, DataValidator.side_present.
  destruct chain as [| | | |s|l|d]; try discriminate.
  - destruct (contains "calls" s); [discriminate|].
    destruct (contains "puts" s); discriminate.
  - destruct (existsb _ l); [discriminate|].
    destruct (existsb _ l); discriminate.
  - intros H. exists d. split; [reflexivity|].
    destruct (DataValidator.has_key "calls" d).
    + destruct (dict_get d "calls" PyNone) as [| | | | |[|x l]|] eqn:Hcalls;
        try (left; eauto; fail);
        (destruct (DataValidator.has_key "puts" d); [|discriminate];
         destruct (dict_get d "puts" PyNone) as [| | | | |[|y l']|]; try discriminate;
         right; eauto).
    + destruct (DataValidator.has_key "puts" d); [|discriminate].
      destruct (dict_get d "puts" PyNone) as [| | | | |[|y l']|]; try discriminate.
      right. eauto.
Qed.

(** [validate_options_data] returns [None] or a non-empty dict made of
    items of its argument, in their order, each of whose chains is a dict
    with a non-empty list under [calls] or under [puts]; validating twice
    is the same as validating once. *)
Theorem validate_options_data_idempotent (options : pyval) :
  (DataValidator.validate_options_data options = PyNone
   \/ exists items kept,
        options = PyDict items
        /\ DataValidator.validate_options_data options = PyDict kept
        /\ kept <> [] /\ sublist kept items
        /\ Forall (fun dc =>
                     exists d, snd dc = PyDict d
                       /\ ((exists x l, dict_get d "calls" PyNone = PyList (x :: l))
                           \/ (exists x l, dict_get d "puts" PyNone = PyList (x :: l))))
                  kept)
  /\ DataValidator.validate_options_data (DataValidator.validate_options_data options)
     = DataValidator.validate_options_data options.
Proof.
  destruct options as [| | | | | |items]; try (split; [left|]; reflexivity).
  assert (Hv : DataValidator.validate_options_data (PyDict items)
               = if truthy (PyDict items)
                 then match DataValidator.valid_options items with
                      | Ret kept => if truthy (PyDict kept) then PyDict kept else PyNone
                      | Raise _ => PyNone
                      end
                 else PyNone) by reflexivity.
  rewrite !Hv.
  destruct (truthy (PyDict items)); [|split; [left|]; reflexivity].
  destruct (DataValidator.valid_options items) as [kept|e] eqn:Hk;
    [|split; [left|]; reflexivity].
  destruct kept as [|x kept]; [split; [left|]; reflexivity|].
  cbn [truthy List.length Nat.eqb negb].
  destruct (valid_options_kept items (x :: kept) Hk) as [Hall Hsub].
  split.
  - right. exists items, (x :: kept). repeat split; try assumption; try discriminate.
    eapply List.Forall_impl; [|exact Hall]. intros dc. apply chain_valid_true.
  - unfold DataValidator.validate_options_data. cbn [truthy List.length Nat.eqb negb].
    rewrite (valid_options_fixed (x :: kept) Hall). reflexivity.
Qed.

(** ** More on the cache manager *)

Lemma set_get_roundtrip_witness :
  exists m',
    CacheManager.set 0 "k" (PyInt 1) "SEC_FILING" (Some Examples.one_entry) = (true, Some m')
    /\ m' !! "k" = Some {| CacheManager.timestamp := 0; CacheManager.value := PyInt 1 |}
    /\ CacheManager.get 7200 "k" "STOCK_PRICE" (Some m')
       = if Qgtb (7200 - 0) (inject_Z (Config.cache_expiry "STOCK_PRICE"))
         then PyNone else PyInt 1.
Proof.
  apply (set_get_roundtrip (Some Examples.one_entry) 0 7200 "k" (PyInt 1)
           "SEC_FILING" "STOCK_PRICE").
  reflexivity.
Defined.

(** On a cache that holds an entry, [set] on one key leaves what [get]
    answers for every other key as it was. *)
Theorem set_leaves_other_keys (h : CacheManager.handle) (t t' : Q) (k k' : string)
    (v : pyval) (cat cat' : string) :
  CacheManager.handle_truthy h = true ->
  k <> k' ->
  CacheManager.get t' k' cat' (snd (CacheManager.set t k v cat h))
  = CacheManager.get t' k' cat' h.
Proof.
  intros Hh Hne. destruct (handle_truthy_Some h Hh) as [m ->].
  unfold CacheManager.set. rewrite Hh. cbn [negb snd].
  unfold CacheManager.get. rewrite handle_truthy_insert, Hh. cbn [negb].
  now rewrite lookup_insert_ne.
Qed.

Lemma set_leaves_other_keys_witness :
  CacheManager.get 10 "cik_MSFT" "SEC_FILING"
    (snd (CacheManager.set 5 "cik_AAPL" (PyStr "0000320193") "SEC_FILING"
            (Some Examples.one_entry)))
  = CacheManager.get 10 "cik_MSFT" "SEC_FILING" (Some Examples.one_entry).
Proof.
  apply set_leaves_other_keys; [reflexivity | discriminate].
Defined.

(** Clearing the whole cache leaves a store on which the manager no
    longer works: every later [set] reports [False] and stores nothing,
    and every [get] misses. *)
Theorem clear_all_disables_cache (h : CacheManager.handle) (pattern : pyval) :
  CacheManager.handle_truthy h = true ->
  truthy pattern = false ->
  let h' := snd (CacheManager.clear pattern h) in
  fst (CacheManager.clear pattern h) = true
  /\ h' = Some ∅
  /\ forall t k v cat,
       CacheManager.set t k v cat h' = (false, h')
       /\ CacheManager.get t k cat (snd (CacheManager.set t k v cat h')) = PyNone.
Proof.
  intros Hh Hp. destruct (handle_truthy_Some h Hh) as [m ->].
  unfold CacheManager.clear. rewrite Hh, Hp. cbn [negb fst snd].
  repeat split.
Qed.

Lemma clear_all_disables_cache_witness :
  let h' := snd (CacheManager.clear PyNone (Some Examples.three_entries)) in
  fst (CacheManager.clear PyNone (Some Examples.three_entries)) = true
  /\ h' = Some ∅
  /\ forall t k v cat,
       CacheManager.set t k v cat h' = (false, h')
       /\ CacheManager.get t k cat (snd (CacheManager.set t k v cat h')) = PyNone.
Proof.
  apply (clear_all_disables_cache (Some Examples.three_entries) PyNone); reflexivity.
Defined.

Lemma fmap_fst_map {A B} (l : list (A * B)) : l.*1 = map fst l.
Proof. induction l as [|x l IH]; [reflexivity | cbn; f_equal; exact IH]. Qed.

Lemma keys_to_delete_NoDup (p : string) (m : gmap string CacheManager.entry) :
  NoDup (CacheManager.keys_to_delete p m).
Proof.
  unfold CacheManager.keys_to_delete. apply NoDup_ListNoDup, List.NoDup_filter.
  apply NoDup_ListNoDup. rewrite <- fmap_fst_map. apply NoDup_fst_map_to_list.
Qed.

Lemma size_delete_all (ks : list string) (m : gmap string CacheManager.entry) :
  NoDup ks -> (forall k, k ∈ ks -> is_Some (m !! k)) ->
  (size (CacheManager.delete_all ks m) + List.length ks = size m)%nat.
Proof.
  unfold CacheManager.delete_all. revert m.
  induction ks as [|a ks IH]; intros m Hnd Hin; simpl; [lia|].
  apply NoDup_cons in Hnd as [Ha Hnd].
  assert (Hrest : forall k, k ∈ ks -> is_Some (delete a m !! k)).
  { intros k Hk. rewrite lookup_delete_ne; [apply Hin; now right|].
    intros ->. contradiction. }
  pose proof (IH (delete a m) Hnd Hrest) as Hsize.
  rewrite map_size_delete_Some in Hsize by (apply Hin; left).
  assert (size m <> 0)%nat; [|lia].
  intros H0. apply map_size_empty_iff in H0. subst m.
  destruct (Hin a) as [x Hx]; [left|]. rewrite lookup_empty in Hx. discriminate.
Qed.

(** The number of entries that [clear(pattern)] reports in its log
    message is the number it actually removes: the keys it selects are
    pairwise distinct, each contains the pattern, and the store shrinks by
    exactly their number. *)
Theorem clear_removes_logged_count (p : string) (m : gmap string CacheManager.entry) :
  let ks := CacheManager.keys_to_delete p m in
  NoDup ks
  /\ Forall (fun k => contains p k = true /\ is_Some (m !! k)) ks
  /\ (size (CacheManager.delete_all ks m) + List.length ks = size m)%nat.
Proof.
  cbv zeta. split; [apply keys_to_delete_NoDup|]. split.
  - apply Forall_forall. intros k Hk. now apply elem_of_keys_to_delete.
  - apply size_delete_all; [apply keys_to_delete_NoDup|].
    intros k Hk. now apply elem_of_keys_to_delete in Hk.
Qed.

(** ** More on the rate limiters *)

Lemma Qltb_true_iff (x y : Q) : Qltb x y = true <-> (x < y)%Q.
Proof. unfold Qltb. exact (Qgtb_true_iff y x). Qed.

Lemma Qltb_false_iff (x y : Q) : Qltb x y = false <-> (y <= x)%Q.
Proof. unfold Qltb. exact (Qgtb_false_iff y x). Qed.

Lemma backoff_delay_nonneg (c : Z) : 0 <= YahooFinanceAPI.backoff_delay c.
Proof.
  unfold YahooFinanceAPI.backoff_delay. apply Z.min_glb; [lia|].
  apply Z.pow_nonneg. lia.
Qed.

(** Every acquire of the market-data limiter returns, ends at least one
    second after the previous request was stamped, stamps the clock
    reading it ends at, and never moves the clock backwards. *)
Theorem check_rate_limit_spacing (w : world) :
  let r := YahooFinanceAPI._check_rate_limit w in
  fst r = Ret tt
  /\ (yahoo_last_request_time w + 1 <= yahoo_last_request_time (snd r))%Q
  /\ yahoo_last_request_time (snd r) = clock (snd r)
  /\ (clock w <= clock (snd r))%Q.
Proof.
  cbv zeta.
  unfold YahooFinanceAPI._check_rate_limit, YahooFinanceAPI.reset_window,
    YahooFinanceAPI.spacing, YahooFinanceAPI.backoff.
  unfold bind, now, get_state, modify, sleep, ret. cbn.
  pose proof (backoff_delay_nonneg (request_count w)) as Hb.
  rewrite Zle_Qle in Hb. change (inject_Z 0) with 0%Q in Hb.
  destruct (Qle_bool (reset_time w) (clock w)); cbn;
    destruct (Qltb (clock w - yahoo_last_request_time w) 1) eqn:Hs; cbn;
    try (destruct (request_count w >? 5); cbn);
    first [apply Qltb_true_iff in Hs | apply Qltb_false_iff in Hs];
    repeat split; lra.
Qed.

(** The backoff reaches its cap of 30 seconds exactly from the 25th
    counted request on; before that it is the power of two
    [2 ^ (request_count / 5)], at most 16 seconds. *)
Theorem backoff_cap_reached_from_25 (c : Z) :
  0 <= c ->
  (YahooFinanceAPI.backoff_delay c = 30 <-> 25 <= c)
  /\ (c < 25 -> YahooFinanceAPI.backoff_delay c = 2 ^ (c / 5)
               /\ YahooFinanceAPI.backoff_delay c <= 16).
Proof.
  intros Hc. unfold YahooFinanceAPI.backoff_delay.
  assert (Hsmall : c < 25 -> 2 ^ (c / 5) <= 16).
  { intros Hlt. change 16 with (2 ^ 4). apply Z.pow_le_mono_r; [lia|].
    assert (c / 5 < 5) by (apply Z.div_lt_upper_bound; lia). lia. }
  assert (Hlarge : 25 <= c -> 32 <= 2 ^ (c / 5)).
  { intros Hge. change 32 with (2 ^ 5). apply Z.pow_le_mono_r; [lia|].
    apply Z.div_le_lower_bound; lia. }
  split; [split|].
  - intros Hmin. destruct (Z.lt_ge_cases c 25) as [Hlt|Hge]; [|exact Hge].
    specialize (Hsmall Hlt). lia.
  - intros Hge. specialize (Hlarge Hge). lia.
  - intros Hlt. specialize (Hsmall Hlt). lia.
Qed.

Lemma backoff_cap_reached_from_25_witness :
  (YahooFinanceAPI.backoff_delay 25 = 30 <-> 25 <= 25)
  /\ (24 < 25 -> YahooFinanceAPI.backoff_delay 24 = 2 ^ (24 / 5)
                /\ YahooFinanceAPI.backoff_delay 24 <= 16).
Proof.
  split.
  - apply (proj1 (backoff_cap_reached_from_25 25 ltac:(lia))).
  - apply (proj2 (backoff_cap_reached_from_25 24 ltac:(lia))).
Defined.

Lemma check_rate_limit_window_reset_witness :
  let w := set_request_count 40 (Examples.fresh 0 None) in
  let w1 := snd (YahooFinanceAPI._check_rate_limit (set_clock 4000 w)) in
  request_count w1 = 1.
Proof.
  exact (proj1 (check_rate_limit_window_reset
                  (set_clock 4000 (set_request_count 40 (Examples.fresh 0 None)))
                  eq_refl)).
Defined.

(** Up to and including the sixth request of a window (a counter of at
    most five) an acquire sleeps at most the spacing to the previous
    request: no backoff is applied. *)
Theorem no_backoff_up_to_sixth_request (w : world) :
  request_count w <= 5 ->
  Qle_bool (reset_time w) (clock w) = false ->
  let w1 := snd (YahooFinanceAPI._check_rate_limit w) in
  request_count w1 = request_count w + 1
  /\ (sleeps w1 = sleeps w
      \/ sleeps w1 = (1 - (clock w - yahoo_last_request_time w))%Q :: sleeps w).
Proof.
  intros Hc Hwin.
  assert (Hgt : (request_count w >? 5) = false) by (rewrite Z.gtb_ltb; apply Z.ltb_ge; lia).
  unfold YahooFinanceAPI._check_rate_limit, YahooFinanceAPI.reset_window,
    YahooFinanceAPI.spacing, YahooFinanceAPI.backoff.
  unfold bind, now, get_state, modify, sleep, ret. cbn.
  rewrite Hwin. cbn.
  destruct (Qltb (clock w - yahoo_last_request_time w) 1); cbn; rewrite Hgt; cbn; auto.
Qed.

Lemma no_backoff_up_to_sixth_request_witness :
  let w := set_request_count 5 (Examples.fresh 0 None) in
  let w1 := snd (YahooFinanceAPI._check_rate_limit w) in
  request_count w1 = 5 + 1
  /\ (sleeps w1 = sleeps w
      \/ sleeps w1 = (1 - (clock w - yahoo_last_request_time w))%Q :: sleeps w).
Proof.
  apply (no_backoff_up_to_sixth_request (set_request_count 5 (Examples.fresh 0 None)));
    [cbn; lia | reflexivity].
Defined.

(** Every acquire of the filings limiter returns, ends at least 0.3
    seconds (the minimum interval of 0.2 seconds plus the safety margin)
    after the previous request was stamped, sleeps the margin last, and
    stamps the clock reading it ends at. *)
Theorem respect_rate_limit_spacing (w : world) :
  let r := SECEdgarAPI._respect_rate_limit w in
  fst r = Ret tt
  /\ (edgar_last_request_time w + (3 # 10) <= edgar_last_request_time (snd r))%Q
  /\ edgar_last_request_time (snd r) = clock (snd r)
  /\ hd_error (sleeps (snd r)) = Some (1 # 10)%Q
  /\ (clock w + (1 # 10) <= clock (snd r))%Q.
Proof.
  cbv zeta.
  unfold SECEdgarAPI._respect_rate_limit, bind, now, get_state, modify, sleep, ret. cbn.
  unfold SECEdgarAPI.wait_time. cbn.
  destruct (Qgtb (1 / inject_Z Config.SEC_EDGAR_API_LIMIT
                  - (clock w - edgar_last_request_time w)) 0) eqn:Hx.
  - rewrite Hx. cbn. repeat split; try reflexivity;
      apply Qgtb_true_iff in Hx; change (1 / inject_Z Config.SEC_EDGAR_API_LIMIT)%Q
        with (1 # 5)%Q in *; lra.
  - assert (H0 : Qgtb 0 0 = false) by reflexivity. rewrite H0. cbn.
    apply Qgtb_false_iff in Hx.
    change (1 / inject_Z Config.SEC_EDGAR_API_LIMIT)%Q with (1 # 5)%Q in *.
    repeat split; try reflexivity; lra.
Qed.

(** ** More on the filings client *)

Lemma append_length (a b : string) :
  String.length (a +:+ b) = (String.length a + String.length b)%nat.
Proof.
  induction a as [|c a IH]; [reflexivity|].
  rewrite append_cons. cbn [String.length Nat.add]. now rewrite IH.
Qed.

Lemma zeros_length (n : nat) : String.length (SECEdgarAPI.zeros n) = n.
Proof. induction n as [|n IH]; simpl; [reflexivity | now rewrite IH]. Qed.

Lemma zfill_length (width : nat) (s : string) :
  String.length (SECEdgarAPI.zfill width s) = Nat.max width (String.length s).
Proof. unfold SECEdgarAPI.zfill. rewrite append_length, zeros_length. lia. Qed.

Lemma find_cik_length (tk : string) (companies : list (string * company)) (cik : string) :
  SECEdgarAPI.find_cik tk companies = Some cik -> (10 <= String.length cik)%nat.
Proof.
  induction companies as [|[key c] rest IH]; simpl; [discriminate|].
  destruct (String.eqb _ tk); [|exact IH].
  intros H. inversion H. rewrite zfill_length. lia.
Qed.

(** The directory lookup takes the first company whose ticker, upper
    cased, is the wanted one, and returns its CIK padded with zeros to at
    least ten characters (a longer number is not cut); without such a
    company it finds nothing. *)
Theorem find_cik_first_match (tk : string) (companies : list (string * company)) :
  let matches (kc : string * company) := upper (default "" (c_ticker (snd kc))) = tk in
  match SECEdgarAPI.find_cik tk companies with
  | Some cik =>
    exists before kc after,
      companies = (before ++ kc :: after)%list
      /\ Forall (fun kc' => ~ matches kc') before
      /\ matches kc
      /\ cik = SECEdgarAPI.zfill 10 (SECEdgarAPI.str_of_N (default 0%N (c_cik_str (snd kc))))
      /\ (10 <= String.length cik)%nat
  | None => Forall (fun kc' => ~ matches kc') companies
  end.
Proof.
  cbv zeta. induction companies as [|[key c] rest IH]; simpl; [constructor|].
  destruct (String.eqb (upper (default "" (c_ticker c))) tk) eqn:Hm.
  - apply String.eqb_eq in Hm.
    exists [], (key, c), rest. repeat split; try assumption; [constructor|].
    rewrite zfill_length. lia.
  - apply String.eqb_neq in Hm.
    destruct (SECEdgarAPI.find_cik tk rest) as [cik|].
    + destruct IH as (before & kc & after & -> & Hb & Hk & Hc & Hl).
      exists ((key, c) :: before), kc, after. repeat split; try assumption.
      constructor; assumption.
    + constructor; assumption.
Qed.

(** When the CIK of a valid ticker is not cached and the ticker directory
    does not answer with status 200, the CIK lookup acquires the limiter,
    issues that one request and gives [None]; the filings methods that
    depend on it then stop short: no submissions request is made,
    [get_filings_metadata] and [get_recent_10k] give [None] and
    [get_recent_8k] gives the empty list. *)
Theorem filings_stop_without_cik (E : env) (ticker : pyval) (tk : string) (w : world) :
  DataValidator.validate_ticker ticker = Ret tk ->
  truthy (CacheManager.get (clock w) ("cik_" +:+ tk) "SEC_FILING" (cache w)) = false ->
  (forall t, match sec_company_tickers E t with
             | Ret r => status_code r <> 200
             | Raise _ => True
             end) ->
  let w1 := set_requests ("sec:company_tickers" :: requests w)
              (snd (SECEdgarAPI._respect_rate_limit w)) in
  SECEdgarAPI.get_cik_from_ticker E ticker w = (Ret PyNone, w1)
  /\ (forall form_type count,
         SECEdgarAPI.get_filings_metadata E ticker form_type count w = (Ret PyNone, w1))
  /\ SECEdgarAPI.get_recent_10k E ticker w = (Ret PyNone, w1)
  /\ SECEdgarAPI.get_recent_8k E ticker w = (Ret (PyList []), w1).
Proof.
  intros Hv Hmiss Hdown. cbv zeta.
  assert (Hcik : SECEdgarAPI.get_cik_from_ticker E ticker w
                 = (Ret PyNone,
                    set_requests ("sec:company_tickers" :: requests w)
                      (snd (SECEdgarAPI._respect_rate_limit w)))).
  { destruct (respect_rate_limit_runs w) as (wait & t & Hacq).
    unfold SECEdgarAPI.get_cik_from_ticker, SECEdgarAPI.get_cik_from_ticker_body,
      try_except.
    unfold bind at 1. unfold lift. rewrite Hv.
    unfold bind at 1. unfold cache_get at 1. rewrite Hmiss.
    unfold bind at 1. rewrite Hacq. cbn [snd].
    unfold bind at 1. unfold request at 1, modify at 1.
    unfold bind at 1. unfold now at 1.
    match goal with
    | |- context [sec_company_tickers E ?t] =>
      specialize (Hdown t); destruct (sec_company_tickers E t) as [r|e]
    end; [|reflexivity].
    apply Z.eqb_neq in Hdown. rewrite Hdown. reflexivity. }
  assert (Hmeta : forall form_type count,
             SECEdgarAPI.get_filings_metadata E ticker form_type count w
             = (Ret PyNone,
                set_requests ("sec:company_tickers" :: requests w)
                  (snd (SECEdgarAPI._respect_rate_limit w)))).
  { intros form_type count.
    unfold SECEdgarAPI.get_filings_metadata, SECEdgarAPI.get_filings_metadata_body,
      try_except. unfold bind at 1. rewrite Hcik. reflexivity. }
  split; [exact Hcik|]. split; [exact Hmeta|]. split.
  - unfold SECEdgarAPI.get_recent_10k, bind. rewrite Hmeta. reflexivity.
  - unfold SECEdgarAPI.get_recent_8k, bind. rewrite Hmeta. reflexivity.
Qed.

Lemma filings_stop_without_cik_witness :
  let w := Examples.fresh 100 (Some Examples.one_entry) in
  let w1 := set_requests ("sec:company_tickers" :: requests w)
              (snd (SECEdgarAPI._respect_rate_limit w)) in
  SECEdgarAPI.get_recent_10k Examples.unreachable (PyStr "aapl") w = (Ret PyNone, w1)
  /\ SECEdgarAPI.get_recent_8k Examples.unreachable (PyStr "aapl") w = (Ret (PyList []), w1).
Proof.
  intros w w1.
  destruct (filings_stop_without_cik Examples.unreachable (PyStr "aapl") "AAPL" w)
    as (_ & _ & H10 & H8).
  - reflexivity.
  - reflexivity.
  - intros t. exact I.
  - split; [exact H10 | exact H8].
Defined.

Lemma get_fresh_entry (t : Q) (k : string) (v : pyval) (cat : string)
    (m : gmap string CacheManager.entry) :
  CacheManager.get t k cat
    (Some (<[k := {| CacheManager.timestamp := t; CacheManager.value := v |}]> m)) = v.
Proof.
  unfold CacheManager.get. rewrite handle_truthy_insert. cbn [negb].
  rewrite lookup_insert_eq. cbn [CacheManager.timestamp CacheManager.value].
  assert (Hfresh : Qgtb (t - t) (inject_Z (Config.cache_expiry cat)) = false).
  { apply Qgtb_false_iff.
    assert (0 <= Config.cache_expiry cat).
    { unfold Config.cache_expiry. repeat destruct (String.eqb _ _); lia. }
    rewrite Zle_Qle in H. change (inject_Z 0) with 0%Q in H. lra. }
  now rewrite Hfresh.
Qed.

(** On a cache that holds an entry, a CIK that had to be fetched from the
    ticker directory is stored, so that the same lookup repeated right
    away is answered from the cache: same CIK, no further sleep, no
    further request. *)
Theorem fetched_cik_is_served_from_cache (E : env) (ticker : pyval) (tk : string)
    (w : world) (companies : list (string * company)) (cik : string) :
  DataValidator.validate_ticker ticker = Ret tk ->
  CacheManager.handle_truthy (cache w) = true ->
  truthy (CacheManager.get (clock w) ("cik_" +:+ tk) "SEC_FILING" (cache w)) = false ->
  (forall t, sec_company_tickers E t
             = Ret {| status_code := 200; json := Ret companies |}) ->
  SECEdgarAPI.find_cik tk companies = Some cik ->
  exists w1,
    SECEdgarAPI.get_cik_from_ticker E ticker w = (Ret (PyStr cik), w1)
    /\ requests w1 = "sec:company_tickers" :: requests w
    /\ SECEdgarAPI.get_cik_from_ticker E ticker w1 = (Ret (PyStr cik), w1).
Proof.
  intros Hv Hh Hmiss Hup Hfind.
  destruct (handle_truthy_Some _ Hh) as [m Hm].
  assert (Hcik : truthy (PyStr cik) = true).
  { pose proof (find_cik_length tk companies cik Hfind) as Hlen.
    destruct cik; [simpl in Hlen; lia | reflexivity]. }
  destruct (respect_rate_limit_runs w) as (wait & t & Hacq).
  eexists. split; [|split].
  - unfold SECEdgarAPI.get_cik_from_ticker, SECEdgarAPI.get_cik_from_ticker_body,
      try_except.
    unfold bind at 1. unfold lift. rewrite Hv.
    unfold bind at 1. unfold cache_get at 1. rewrite Hmiss.
    unfold bind at 1. rewrite Hacq.
    unfold bind at 1. unfold request at 1, modify at 1.
    unfold bind at 1. unfold now at 1.
    rewrite Hup. cbn [status_code json Z.eqb Pos.eqb negb].
    rewrite Hfind, Hcik.
    unfold bind, cache_set, CacheManager.set. cbn [cache clock set_requests].
    rewrite Hh. cbn [negb]. rewrite Hm. reflexivity.
  - reflexivity.
  - apply (proj2 (truthy_hit_returns_without_acquiring E ticker tk _ Hv));
      [|exact Hcik].
    cbn [cache clock set_cache set_requests]. apply get_fresh_entry.
Qed.

Lemma fetched_cik_is_served_from_cache_witness :
  exists w1,
    SECEdgarAPI.get_cik_from_ticker Examples.answering (PyStr "aapl")
      (Examples.fresh 100 (Some Examples.one_entry)) = (Ret (PyStr "0000320193"), w1)
    /\ requests w1 = ["sec:company_tickers"]
    /\ SECEdgarAPI.get_cik_from_ticker Examples.answering (PyStr "aapl") w1
       = (Ret (PyStr "0000320193"), w1).
Proof.
  apply (fetched_cik_is_served_from_cache Examples.answering (PyStr "aapl") "AAPL"
           (Examples.fresh 100 (Some Examples.one_entry))
           [("0", {| c_ticker := Some "aapl"; c_cik_str := Some 320193%N |})]
           "0000320193");
    reflexivity.
Defined.

(** ** More on the market-data client *)

Lemma check_rate_limit_frame (w : world) :
  exists w1,
    YahooFinanceAPI._check_rate_limit w = (Ret tt, w1)
    /\ cache w1 = cache w /\ requests w1 = requests w
    /\ edgar_last_request_time w1 = edgar_last_request_time w.
Proof.
  unfold YahooFinanceAPI._check_rate_limit, YahooFinanceAPI.reset_window,
    YahooFinanceAPI.spacing, YahooFinanceAPI.backoff.
  unfold bind, now, get_state, modify, sleep, ret. cbn.
  destruct (Qle_bool (reset_time w) (clock w)); cbn;
    destruct (Qltb (clock w - yahoo_last_request_time w) 1); cbn;
    try (destruct (request_count w >? 5); cbn);
    eexists; repeat split.
Qed.

(** On a cache that holds an entry, ticker info that had to be fetched is
    built with the validated ticker as its symbol and stored, so that the
    same call repeated right away is answered from the cache: same dict,
    no further acquire, no further request. *)
Theorem fetched_info_is_served_from_cache (E : env) (ticker : pyval) (tk : string)
    (w : world) (d : list (string * pyval)) :
  DataValidator.validate_ticker ticker = Ret tk ->
  CacheManager.handle_truthy (cache w) = true ->
  truthy (CacheManager.get (clock w) ("ticker_info_" +:+ tk) "STOCK_PRICE" (cache w)) = false ->
  (forall t, yf_info E tk t = Ret (PyDict d)) ->
  d <> [] ->
  exists items w1,
    YahooFinanceAPI.get_ticker_info E ticker w = (Ret (PyDict items), w1)
    /\ dict_get items "symbol" PyNone = PyStr tk
    /\ requests w1 = ("yahoo:info:" +:+ tk) :: requests w
    /\ YahooFinanceAPI.get_ticker_info E ticker w1 = (Ret (PyDict items), w1).
Proof.
  intros Hv Hh Hmiss Hup Hd.
  destruct (check_rate_limit_frame w) as (wa & Hacq & Hcache & Hreq & _).
  assert (Hha : CacheManager.handle_truthy (cache wa) = true) by now rewrite Hcache.
  destruct (handle_truthy_Some _ Hha) as [m Hm].
  assert (Htd : truthy (PyDict d) = true) by (destruct d; [congruence | reflexivity]).
  eexists. eexists. split; [|split; [|split]].
  - unfold YahooFinanceAPI.get_ticker_info, YahooFinanceAPI.get_ticker_info_body,
      try_except.
    unfold bind at 1. unfold lift at 1. rewrite Hv.
    unfold bind at 1. unfold cache_get at 1. rewrite Hmiss.
    unfold bind at 1. rewrite Hacq.
    unfold bind at 1. unfold request at 1, modify at 1.
    unfold bind at 1. unfold now at 1.
    unfold bind at 1. unfold lift at 1. rewrite Hup, Htd.
    unfold bind, now, cache_set, CacheManager.set, ret.
    cbn [cache clock set_requests]. rewrite Hha. cbn [negb]. rewrite Hm.
    reflexivity.
  - reflexivity.
  - cbn [requests set_cache set_requests]. now rewrite Hreq.
  - apply (proj1 (truthy_hit_returns_without_acquiring E ticker tk _ Hv));
      [|reflexivity].
    cbn [cache clock set_cache set_requests]. apply get_fresh_entry.
Qed.

Lemma fetched_info_is_served_from_cache_witness :
  exists items w1,
    YahooFinanceAPI.get_ticker_info Examples.answering (PyStr "aapl")
      (Examples.fresh 100 (Some Examples.one_entry)) = (Ret (PyDict items), w1)
    /\ dict_get items "symbol" PyNone = PyStr "AAPL"
    /\ requests w1 = ["yahoo:info:AAPL"]
    /\ YahooFinanceAPI.get_ticker_info Examples.answering (PyStr "aapl") w1
       = (Ret (PyDict items), w1).
Proof.
  apply (fetched_info_is_served_from_cache Examples.answering (PyStr "aapl") "AAPL"
           (Examples.fresh 100 (Some Examples.one_entry))
           [("shortName", PyStr "Apple Inc.")]);
    try reflexivity.
  discriminate.
Defined.

(** ** A cache that cannot be used is never written *)

Section UnusableCache.
Variable h : CacheManager.handle.
Hypothesis h_falsy : CacheManager.handle_truthy h = false.

Import Frame.

Let same_cache (w : world) : Prop := cache w = h.

Lemma preserves_ret {A} (P : world -> Prop) (a : A) : preserves P (ret a).
Proof. intros w o w' H HP. inversion H; subst. exact HP. Qed.

Lemma preserves_lift {A} (P : world -> Prop) (o : outcome A) : preserves P (lift o).
Proof. intros w o' w' H HP. inversion H; subst. exact HP. Qed.

Lemma preserves_now (P : world -> Prop) : preserves P now.
Proof. intros w o w' H HP. inversion H; subst. exact HP. Qed.

Lemma preserves_get_state (P : world -> Prop) : preserves P get_state.
Proof. intros w o w' H HP. inversion H; subst. exact HP. Qed.

Lemma preserves_bind {A B} (P : world -> Prop) (m : M world A) (k : A -> M world B) :
  preserves P m -> (forall a, preserves P (k a)) -> preserves P (bind m k).
Proof.
  intros Hm Hk w o w' H HP. unfold bind in H.
  destruct (m w) as [[a|e] w1] eqn:Hmw.
  - eapply Hk; [exact H|]. eapply Hm; eauto.
  - inversion H; subst. eapply Hm; eauto.
Qed.

Lemma preserves_try {A} (P : world -> Prop) (m : M world A) (handler : exn -> M world A) :
  preserves P m -> (forall e, preserves P (handler e)) -> preserves P (try_except m handler).
Proof.
  intros Hm Hh w o w' H HP. unfold try_except in H.
  destruct (m w) as [[a|e] w1] eqn:Hmw.
  - inversion H; subst. eapply Hm; eauto.
  - eapply Hh; [exact H|]. eapply Hm; eauto.
Qed.

Lemma preserves_modify (f : world -> world) :
  (forall w, cache (f w) = cache w) -> preserves same_cache (modify f).
Proof.
  intros Hf w o w' H HP. inversion H; subst. unfold same_cache. now rewrite Hf.
Qed.

Lemma preserves_sleep (d : Q) : preserves same_cache (sleep d).
Proof. apply preserves_modify. reflexivity. Qed.

Lemma preserves_request (what : string) : preserves same_cache (request what).
Proof. apply preserves_modify. reflexivity. Qed.

Lemma preserves_cache_get (key cache_type : string) :
  preserves same_cache (cache_get key cache_type).
Proof. intros w o w' H HP. inversion H; subst. exact HP. Qed.

Lemma preserves_cache_set (key : string) (v : pyval) (cache_type : string) :
  preserves same_cache (cache_set key v cache_type).
Proof.
  intros w o w' H HP. unfold same_cache in *. unfold cache_set, CacheManager.set in H.
  rewrite HP, h_falsy in H. cbn [negb] in H. inversion H; subst. reflexivity.
Qed.

(** Walk through a computation of a client, one construct at a time. *)
Ltac preserves_steps :=
  repeat first
    [ apply preserves_bind; [|intros ?]
    | apply preserves_try; [|intros ?]
    | apply preserves_ret
    | apply preserves_lift
    | apply preserves_now
    | apply preserves_get_state
    | apply preserves_sleep
    | apply preserves_request
    | apply preserves_cache_get
    | apply preserves_cache_set
    | apply preserves_modify; reflexivity
    | progress cbv zeta
    | match goal with
      | |- preserves _ (if ?b then _ else _) => destruct b
      | |- preserves _ (match ?x with _ => _ end) => destruct x
      end ].

Lemma preserves_check_rate_limit : preserves same_cache YahooFinanceAPI._check_rate_limit.
Proof.
  unfold YahooFinanceAPI._check_rate_limit, YahooFinanceAPI.reset_window,
    YahooFinanceAPI.spacing, YahooFinanceAPI.backoff.
  preserves_steps.
Qed.

Lemma preserves_respect_rate_limit : preserves same_cache SECEdgarAPI._respect_rate_limit.
Proof. unfold SECEdgarAPI._respect_rate_limit. preserves_steps. Qed.

Variable E : env.

Lemma preserves_get_cik (ticker : pyval) :
  preserves same_cache (SECEdgarAPI.get_cik_from_ticker E ticker).
Proof.
  unfold SECEdgarAPI.get_cik_from_ticker, SECEdgarAPI.get_cik_from_ticker_body.
  cbv zeta.
  repeat first [ apply preserves_respect_rate_limit | progress preserves_steps ].
Qed.

Lemma preserves_get_filings_metadata (ticker : pyval) (form_type : string) (count : Z) :
  preserves same_cache (SECEdgarAPI.get_filings_metadata E ticker form_type count).
Proof.
  unfold SECEdgarAPI.get_filings_metadata, SECEdgarAPI.get_filings_metadata_body.
  cbv zeta.
  repeat first [ apply preserves_respect_rate_limit | apply preserves_get_cik
               | progress preserves_steps ].
Qed.

(** When the cache handle is falsy (the store could not be opened, or it
    holds no entry), no method of the two source clients ever changes the
    cache: nothing is stored, so every call goes to the provider again. *)
Theorem unusable_cache_is_never_written (w : world) (ticker : pyval) :
  cache w = h ->
  cache (snd (YahooFinanceAPI.get_ticker_info E ticker w)) = h
  /\ (forall start_date end_date period interval,
         cache (snd (YahooFinanceAPI.get_historical_data E ticker start_date end_date
                       period interval w)) = h)
  /\ cache (snd (SECEdgarAPI.get_cik_from_ticker E ticker w)) = h
  /\ (forall form_type count,
         cache (snd (SECEdgarAPI.get_filings_metadata E ticker form_type count w)) = h)
  /\ cache (snd (SECEdgarAPI.get_recent_10k E ticker w)) = h
  /\ cache (snd (SECEdgarAPI.get_recent_8k E ticker w)) = h.
Proof.
  intros Hw.
  assert (Hrun : forall A (m : M world A), preserves same_cache m -> cache (snd (m w)) = h).
  { intros A m Hm. destruct (m w) as [o w'] eqn:Hmw. exact (Hm w o w' Hmw Hw). }
  repeat split; intros; apply Hrun.
  - unfold YahooFinanceAPI.get_ticker_info, YahooFinanceAPI.get_ticker_info_body.
    cbv zeta.
    repeat first [ apply preserves_check_rate_limit | progress preserves_steps ].
  - unfold YahooFinanceAPI.get_historical_data, YahooFinanceAPI.get_historical_data_body.
    cbv zeta.
    repeat first [ apply preserves_check_rate_limit | progress preserves_steps ].
  - apply preserves_get_cik.
  - apply preserves_get_filings_metadata.
  - unfold SECEdgarAPI.get_recent_10k.
    repeat first [ apply preserves_get_filings_metadata | progress preserves_steps ].
  - unfold SECEdgarAPI.get_recent_8k.
    repeat first [ apply preserves_get_filings_metadata | progress preserves_steps ].
Qed.

End UnusableCache.

Lemma unusable_cache_is_never_written_witness :
  cache (snd (YahooFinanceAPI.get_ticker_info Examples.answering (PyStr "aapl")
                (Examples.fresh 100 (Some ∅)))) = Some ∅
  /\ cache (snd (SECEdgarAPI.get_cik_from_ticker Examples.answering (PyStr "aapl")
                   (Examples.fresh 100 (Some ∅)))) = Some ∅.
Proof.
  assert (Hfalsy : CacheManager.handle_truthy (Some ∅) = false) by reflexivity.
  destruct (unusable_cache_is_never_written (Some ∅) Hfalsy Examples.answering
              (Examples.fresh 100 (Some ∅)) (PyStr "aapl") eq_refl)
    as (H1 & _ & H2 & _).
  split; [exact H1 | exact H2].
Defined.

(** ** More on the implied-volatility aggregation *)

Lemma all_ivs_app (l1 l2 : list (string * YahooFinanceAPI.chain)) :
  YahooFinanceAPI.all_ivs (l1 ++ l2)%list = (YahooFinanceAPI.all_ivs l1 ++ YahooFinanceAPI.all_ivs l2)%list.
Proof. unfold YahooFinanceAPI.all_ivs. now rewrite map_app, List.filter_app. Qed.

(** Quotes without a positive implied volatility do not count: a contract
    whose [impliedVolatility] is missing, zero or negative changes no
    side's values, and an expiration neither of whose sides has a positive
    value gets the average 0 and leaves the overall [average_iv] as it is
    without that expiration. *)
Theorem valueless_quotes_are_ignored :
  (forall (c : YahooFinanceAPI.contract) (before after : list YahooFinanceAPI.contract),
      match YahooFinanceAPI.impliedVolatility c with
      | Some iv => (iv <= 0)%Q
      | None => True
      end ->
      YahooFinanceAPI.side_ivs (Some (before ++ c :: after)%list)
      = YahooFinanceAPI.side_ivs (Some (before ++ after)%list))
  /\ (forall (date : string) (ch : YahooFinanceAPI.chain)
             (before after : list (string * YahooFinanceAPI.chain)),
         YahooFinanceAPI.side_ivs (YahooFinanceAPI.calls ch) = [] ->
         YahooFinanceAPI.side_ivs (YahooFinanceAPI.puts ch) = [] ->
         YahooFinanceAPI.average_iv (YahooFinanceAPI.expiration_average ch) = 0%Q
         /\ YahooFinanceAPI.overall_average_iv
              (YahooFinanceAPI.calculate_implied_volatility (before ++ (date, ch) :: after)%list)
            = YahooFinanceAPI.overall_average_iv
                (YahooFinanceAPI.calculate_implied_volatility (before ++ after)%list)).
Proof.
  split.
  - intros c before after Hc. unfold YahooFinanceAPI.side_ivs.
    rewrite !flat_map_app. cbn [flat_map]. f_equal.
    destruct (YahooFinanceAPI.impliedVolatility c) as [iv|]; [|reflexivity].
    apply Qgtb_false_iff in Hc. now rewrite Hc.
  - intros date ch before after Hcalls Hputs.
    assert (Hzero : YahooFinanceAPI.average_iv (YahooFinanceAPI.expiration_average ch) = 0%Q).
    { unfold YahooFinanceAPI.expiration_average. cbn [YahooFinanceAPI.average_iv].
      now rewrite Hcalls, Hputs. }
    split; [exact Hzero|].
    unfold YahooFinanceAPI.calculate_implied_volatility.
    cbn [YahooFinanceAPI.overall_average_iv].
    rewrite !all_ivs_app. f_equal. f_equal.
    unfold YahooFinanceAPI.all_ivs at 1. cbn [map List.filter snd].
    rewrite Hzero. reflexivity.
Qed.

Lemma valueless_quotes_are_ignored_witness :
  let quoted := {| YahooFinanceAPI.impliedVolatility := Some (2 # 10)%Q |} in
  let stale := {| YahooFinanceAPI.impliedVolatility := Some 0%Q |} in
  let unquoted := {| YahooFinanceAPI.calls := Some [stale]; YahooFinanceAPI.puts := None |} in
  let traded := {| YahooFinanceAPI.calls := Some [quoted]; YahooFinanceAPI.puts := None |} in
  YahooFinanceAPI.side_ivs (Some ([quoted] ++ stale :: [])%list)
  = YahooFinanceAPI.side_ivs (Some ([quoted] ++ [])%list)
  /\ YahooFinanceAPI.overall_average_iv
       (YahooFinanceAPI.calculate_implied_volatility
          ([("2024-01-19", traded)] ++ ("2024-02-16", unquoted) :: [])%list)
     = YahooFinanceAPI.overall_average_iv
         (YahooFinanceAPI.calculate_implied_volatility ([("2024-01-19", traded)] ++ [])%list).
Proof.
  intros quoted stale unquoted traded.
  destruct valueless_quotes_are_ignored as [Hcontract Hexpiration]. split.
  - apply (Hcontract stale [quoted] []). cbn. lra.
  - apply (Hexpiration "2024-02-16" unquoted [("2024-01-19", traded)] []); reflexivity.
Defined.


(** ** More on the key financials *)



(** ** More on the aggregator *)

Lemma keeps_for_each (P : FinancialDataAPI.composite -> Prop) (l : list pyval)
    (body : pyval -> M FinancialDataAPI.agg unit) :
  (forall x, FinancialDataAPI.keeps P (body x)) ->
  FinancialDataAPI.keeps P (FinancialDataAPI.for_each l body).
Proof.
  intros Hbody. induction l as [|x l IH]; simpl.
  - apply keeps_ret.
  - apply keeps_bind; [apply Hbody | intros _; exact IH].
Qed.

Lemma keeps_get_state (P : FinancialDataAPI.composite -> Prop) :
  FinancialDataAPI.keeps P get_state.
Proof. intros s o s' H HP. inversion H; subst. exact HP. Qed.

(** Whatever the collaborators do, the record [get_stock_data] returns
    for a string ticker carries the time stamp taken before the first
    call, and each of its fields is either still at its default or holds a
    truthy answer: an empty or [None] answer is never merged. *)
Theorem only_truthy_answers_are_merged (E : env) (C : FinancialDataAPI.clients)
    (s : string) (w : world) :
  exists record w',
    FinancialDataAPI.get_stock_data E C (PyStr s) w = (Ret record, w')
    /\ FinancialDataAPI.last_updated record = isoformat E (clock w)
    /\ (FinancialDataAPI.basic_info record = PyDict []
        \/ truthy (FinancialDataAPI.basic_info record) = true)
    /\ (FinancialDataAPI.implied_volatility record = PyNone
        \/ truthy (FinancialDataAPI.implied_volatility record) = true)
    /\ (FinancialDataAPI.options_data record = None
        \/ exists v, FinancialDataAPI.options_data record = Some v /\ truthy v = true)
    /\ (FinancialDataAPI.recent_10k record = PyNone
        \/ truthy (FinancialDataAPI.recent_10k record) = true)
    /\ (FinancialDataAPI.recent_8k record = PyList []
        \/ truthy (FinancialDataAPI.recent_8k record) = true)
    /\ (FinancialDataAPI.key_financials record = PyNone
        \/ truthy (FinancialDataAPI.key_financials record) = true).
Proof.
  pose (P := fun c : FinancialDataAPI.composite =>
    FinancialDataAPI.last_updated c = isoformat E (clock w)
    /\ (FinancialDataAPI.basic_info c = PyDict []
        \/ truthy (FinancialDataAPI.basic_info c) = true)
    /\ (FinancialDataAPI.implied_volatility c = PyNone
        \/ truthy (FinancialDataAPI.implied_volatility c) = true)
    /\ (FinancialDataAPI.options_data c = None
        \/ exists v, FinancialDataAPI.options_data c = Some v /\ truthy v = true)
    /\ (FinancialDataAPI.recent_10k c = PyNone
        \/ truthy (FinancialDataAPI.recent_10k c) = true)
    /\ (FinancialDataAPI.recent_8k c = PyList []
        \/ truthy (FinancialDataAPI.recent_8k c) = true)
    /\ (FinancialDataAPI.key_financials c = PyNone
        \/ truthy (FinancialDataAPI.key_financials c) = true)).
  assert (Hkeeps : FinancialDataAPI.keeps P (FinancialDataAPI.gather C (PyStr (upper s)))).
  { unfold FinancialDataAPI.gather, FinancialDataAPI.step_basic_info,
      FinancialDataAPI.step_historical, FinancialDataAPI.step_options,
      FinancialDataAPI.step_implied_volatility, FinancialDataAPI.step_recent_10k,
      FinancialDataAPI.step_recent_8k, FinancialDataAPI.step_key_financials,
      FinancialDataAPI.step_persist, FinancialDataAPI.pause.
    repeat first
      [ apply keeps_bind; [|intros ?]
      | apply keeps_call
      | apply keeps_ret
      | apply keeps_lift
      | apply keeps_get_state
      | apply keeps_for_each; intros ?
      | apply keeps_store; unfold P; cbn; intros c Hc; tauto
      | apply keeps_store; unfold P; cbn; intros c Hc;
        repeat split; try tauto; right; eauto; fail
      | match goal with
        | |- FinancialDataAPI.keeps _ (if ?b then _ else _) => destruct b eqn:?
        | |- FinancialDataAPI.keeps _ (match ?h with _ => _ end) => destruct h
        end ]. }
  rewrite get_stock_data_run.
  destruct (FinancialDataAPI.gather C _ _) as [o [w' c']] eqn:Hg.
  exists c', w'. split; [reflexivity|].
  apply (Hkeeps _ _ _ Hg). unfold P. cbn. repeat split; auto.
Qed.
